(** * Vigil: the attention-aware review engine

    A shallow embedding of the engagement estimator and the per-item tracker
    of [frontend/src/hooks/useAttention.js] and of the review session of the
    [ReviewBriefing] component, followed by the properties proved of them.

    JavaScript numbers are IEEE 754 binary64 values; they are modelled by
    Rocq's primitive floats, so every arithmetic operation below rounds the
    way the program's does.  Millisecond timestamps ([Date.now()]) are
    integers and are modelled in [Z]. *)

From Stdlib Require Import ZArith Floats.
From stdpp Require Import base option list gmap strings.

Local Open Scope Z_scope.
#[local] Set Warnings "-inexact-float".

(** ** JavaScript number helpers *)

Module Num.

(** [Math.max] of two numbers: NaN is contagious and [+0] is larger than
    [-0]. *)
Definition max2 (a b : float) : float :=
  if (PrimFloat.is_nan a || PrimFloat.is_nan b)%bool then PrimFloat.nan
  else if PrimFloat.ltb a b then b
  else if PrimFloat.ltb b a then a
  else if PrimFloat.get_sign a then b else a.

(** [Math.min] of two numbers: NaN is contagious and [-0] is smaller than
    [+0]. *)
Definition min2 (a b : float) : float :=
  if (PrimFloat.is_nan a || PrimFloat.is_nan b)%bool then PrimFloat.nan
  else if PrimFloat.ltb a b then a
  else if PrimFloat.ltb b a then b
  else if PrimFloat.get_sign a then a else b.

(** The variadic [Math.max(...)] and [Math.min(...)]: a left fold that
    starts from [-Infinity], respectively [+Infinity]. *)
Definition Math_max (xs : list float) : float :=
  fold_left max2 xs PrimFloat.neg_infinity.

Definition Math_min (xs : list float) : float :=
  fold_left min2 xs PrimFloat.infinity.

Definition Math_abs (a : float) : float := PrimFloat.abs a.

(** An array length as a number.  Lengths are below [2^32], far inside the
    range where the conversion is exact. *)
Definition of_length (n : nat) : float :=
  PrimFloat.of_uint63 (Uint63.of_Z (Z.of_nat n)).

End Num.

(** What a call does: it returns a value or throws.  The only exception the
    modelled code can raise is the [TypeError] of a property read on
    [undefined]. *)
Inductive Outcome (A : Type) : Type :=
  | Returned (a : A)
  | TypeError.
Arguments Returned {A} a.
Arguments TypeError {A}.

(** ** The landmark extractor's result *)

Module Landmark.
Record t : Type := mk { x : float; y : float; z : float }.
End Landmark.

Record Category : Type := {
  categoryName : string;
  score : float
}.

Record Classifications : Type := {
  categories : option (list Category)
}.

Record FaceLandmarkerResult : Type := {
  faceLandmarks : option (list (list Landmark.t));
  faceBlendshapes : option (list Classifications)
}.

(** The estimator's output, [{ engagement, focus, faceDetected }]. *)
Module Metrics.
Record t : Type := mk {
  engagement : float;
  focus : float;
  faceDetected : bool
}.
End Metrics.

(** ** The engagement estimator *)

(** [getBlendshapeValue(blendshapes, name)]: the score of the first category
    with that name in [blendshapes[0].categories], and 0 when any of the
    pieces is missing. *)
Definition getBlendshapeValue
    (blendshapes : option (list Classifications)) (name : string) : float :=
  match blendshapes with
  | None => 0%float
  | Some bs =>
      match bs with
      | [] => 0%float
      | first :: _ =>
          match categories first with
          | None => 0%float
          | Some cats =>
              match List.find (fun c => String.eqb (categoryName c) name) cats with
              | Some shape => score shape
              | None => 0%float
              end
          end
      end
  end.

(** [computeEngagement(result)].  The three landmark reads ([landmarks[1]],
    [landmarks[152]], [landmarks[10]]) throw when the landmark is missing. *)
Definition computeEngagement (result : FaceLandmarkerResult)
    : Outcome Metrics.t :=
  match faceLandmarks result with
  | None | Some [] =>
      Returned (Metrics.mk 0%float 0%float false)
  | Some (landmarks :: _) =>
      let blendshapes := faceBlendshapes result in
      let blinkL := getBlendshapeValue blendshapes "eyeBlinkLeft" in
      let blinkR := getBlendshapeValue blendshapes "eyeBlinkRight" in
      let eyeOpenness := (1 - (blinkL + blinkR) / 2)%float in
      let lookDownL := getBlendshapeValue blendshapes "eyeLookDownLeft" in
      let lookDownR := getBlendshapeValue blendshapes "eyeLookDownRight" in
      let lookOutL := getBlendshapeValue blendshapes "eyeLookOutLeft" in
      let lookOutR := getBlendshapeValue blendshapes "eyeLookOutRight" in
      let lookAway := Num.Math_max [lookDownL; lookDownR; lookOutL; lookOutR] in
      let gazeScore := Num.Math_max [0%float; (1 - lookAway * 1.5)%float] in
      match landmarks !! 1%nat, landmarks !! 152%nat, landmarks !! 10%nat with
      | Some noseTip, Some chin, Some forehead =>
          let faceCenterX := Landmark.x noseTip in
          let xDeviation := Num.Math_abs (faceCenterX - 0.5)%float in
          let headFacingScore := Num.Math_max [0%float; (1 - xDeviation * 3)%float] in
          let faceHeight := Num.Math_abs (Landmark.y forehead - Landmark.y chin)%float in
          let headTiltScore := Num.Math_min [1%float; (faceHeight / 0.25)%float] in
          let engagement :=
            Num.Math_max [0%float; Num.Math_min [1%float;
              (eyeOpenness * 0.45 + headFacingScore * 0.35 + headTiltScore * 0.2)%float]] in
          let focus :=
            Num.Math_max [0%float; Num.Math_min [1%float;
              (gazeScore * 0.5 + eyeOpenness * 0.3 + headFacingScore * 0.2)%float]] in
          Returned (Metrics.mk engagement focus true)
      | _, _, _ => TypeError
      end
  end.

(** ** The per-item tracker (the [useAttention] hook) *)

(** The live snapshot, [{ engagement, focus, stress, heartRate,
    faceDetected }]: one value, replaced as a whole by every update. *)
Module Live.
Record t : Type := mk {
  engagement : float;
  focus : float;
  stress : float;
  heartRate : float;
  faceDetected : bool
}.
End Live.

(** An entry of [itemMetricsRef.current]. *)
Record TrackingData : Type := {
  readings : list Live.t;
  startTime : Z
}.

(** What [stopTrackingItem] returns for a tracked item. *)
Record ItemResult : Type := {
  itemIndex : nat;
  avgEngagement : float;
  avgFocus : float;
  timeSpentMs : Z
}.

(** The hook's state: the [liveMetrics] state variable, the object behind
    [itemMetricsRef] (keyed by item index) and the [isActive] flag. *)
Record Attention : Type := {
  liveMetrics : Live.t;
  itemMetrics : gmap nat TrackingData;
  isActive : bool
}.

Definition initialLiveMetrics : Live.t :=
  Live.mk 0%float 0%float 0%float 0%float false.

Definition initialAttention : Attention :=
  {| liveMetrics := initialLiveMetrics; itemMetrics := ∅; isActive := false |}.

(** [setLiveMetrics(...)]: the snapshot is overwritten in one step. *)
Definition setLiveMetrics (m : Live.t) (att : Attention) : Attention :=
  {| liveMetrics := m; itemMetrics := itemMetrics att; isActive := isActive att |}.

(** The frame loop's update: the estimator's output replaces [engagement],
    [focus] and [faceDetected]; [stress] and [heartRate] are carried over. *)
Definition applyEstimate (metrics : Metrics.t) (prev : Live.t) : Live.t :=
  Live.mk (Metrics.engagement metrics) (Metrics.focus metrics)
          (Live.stress prev) (Live.heartRate prev) (Metrics.faceDetected metrics).

(** [startSession] and [stopSession], as far as the tracker sees them. *)
Definition startSession (att : Attention) : Attention :=
  {| liveMetrics := liveMetrics att; itemMetrics := itemMetrics att; isActive := true |}.

Definition stopSession (att : Attention) : Attention :=
  {| liveMetrics := liveMetrics att; itemMetrics := itemMetrics att; isActive := false |}.

(** [startTrackingItem(itemIndex)], with [now] the value of [Date.now()]. *)
Definition startTrackingItem (itemIndex : nat) (now : Z) (att : Attention)
    : Attention :=
  {| liveMetrics := liveMetrics att;
     itemMetrics := <[itemIndex := {| readings := []; startTime := now |}]> (itemMetrics att);
     isActive := isActive att |}.

(** [readings.reduce((s, r) => s + r.engagement, 0)] and its [focus] twin. *)
Definition sumEngagement (rs : list Live.t) : float :=
  fold_left (fun s r => (s + Live.engagement r)%float) rs 0%float.

Definition sumFocus (rs : list Live.t) : float :=
  fold_left (fun s r => (s + Live.focus r)%float) rs 0%float.

(** [stopTrackingItem(itemIndex)]: the returned value ([None] for [null])
    and the hook's state afterwards.  The function writes nothing: the
    record stays in [itemMetricsRef].  [liveMetrics] is the snapshot of the
    render the callback belongs to, the latest one. *)
Definition stopTrackingItem (itemIndex : nat) (now : Z) (att : Attention)
    : option ItemResult * Attention :=
  match itemMetrics att !! itemIndex with
  | None => (None, att)
  | Some data =>
      let elapsed := now - startTime data in
      let readings := readings data in
      match readings with
      | [] =>
          (Some {| itemIndex := itemIndex;
                   avgEngagement := Live.engagement (liveMetrics att);
                   avgFocus := Live.focus (liveMetrics att);
                   timeSpentMs := elapsed |}, att)
      | _ :: _ =>
          let avgEngagement :=
            (sumEngagement readings / Num.of_length (length readings))%float in
          let avgFocus :=
            (sumFocus readings / Num.of_length (length readings))%float in
          (Some {| itemIndex := itemIndex;
                   avgEngagement := avgEngagement;
                   avgFocus := avgFocus;
                   timeSpentMs := elapsed |}, att)
      end
  end.

(** [recordReading(itemIndex)]: a copy of the snapshot is pushed onto the
    readings of the item's record, when there is one. *)
Definition recordReading (itemIndex : nat) (att : Attention) : Attention :=
  match itemMetrics att !! itemIndex with
  | Some data =>
      {| liveMetrics := liveMetrics att;
         itemMetrics :=
           <[itemIndex := {| readings := readings data ++ [liveMetrics att];
                             startTime := startTime data |}]> (itemMetrics att);
         isActive := isActive att |}
  | None => att
  end.

(** ** The review session (the [ReviewBriefing] component) *)

Inductive Phase : Type := setup | reviewing | results.

(** The component's state variables, the [itemResultsRef] mirror and the
    hook it owns.  The briefing's item count is a prop and is passed to the
    functions that read it. *)
Record Review : Type := {
  currentIndex : nat;
  phase : Phase;
  itemResults : list ItemResult;
  missedItems : list ItemResult;
  reviewQueue : option (list nat);
  isReReview : bool;
  itemResultsRef : list ItemResult;
  attention : Attention
}.

Definition initialReview : Review :=
  {| currentIndex := 0; phase := setup; itemResults := []; missedItems := [];
     reviewQueue := None; isReReview := false; itemResultsRef := [];
     attention := initialAttention |}.

(** [reviewQueue || items.map((_, i) => i)]; an empty array is truthy. *)
Definition activeQueue (nItems : nat) (s : Review) : list nat :=
  match reviewQueue s with
  | Some q => q
  | None => seq 0 nItems
  end.

(** [activeQueue[currentIndex]], [None] standing for [undefined]. *)
Definition activeItemIndex (nItems : nat) (s : Review) : option nat :=
  activeQueue nItems s !! currentIndex s.

(** The reviewing view shows the item card, with its two buttons and the
    video element, only when [items[activeItemIndex]] exists. *)
Definition itemShown (nItems : nat) (s : Review) : bool :=
  match activeItemIndex nItems s with
  | Some i => i <? nItems
  | None => false
  end%nat.

(** The flagging predicate of both filters in [finishReview]. *)
Definition failsThreshold (r : ItemResult) : bool :=
  (PrimFloat.ltb (avgEngagement r) 0.4 || PrimFloat.ltb (avgFocus r) 0.35)%bool.

(** [updated.findIndex(r => r.itemIndex === idx)]. *)
Fixpoint findIndex (idx : nat) (updated : list ItemResult) : option nat :=
  match updated with
  | [] => None
  | r :: rest =>
      if (itemIndex r =? idx)%nat then Some 0%nat
      else match findIndex idx rest with
           | Some k => Some (S k)
           | None => None
           end
  end.

(** One turn of the merge loop of the re-review branch. *)
Definition mergeOne (updated : list ItemResult) (result : ItemResult)
    : list ItemResult :=
  match findIndex (itemIndex result) updated with
  | Some existingIdx => <[existingIdx := result]> updated
  | None => updated ++ [result]
  end.

(** The updater passed to [setItemResults] in the re-review branch. *)
Definition mergeResults (prev finalResults : list ItemResult)
    : list ItemResult :=
  fold_left mergeOne finalResults prev.

(** [finishReview(finalResults)], run on the state in which the updates
    queued before the call have been applied; [isReReview] is the value of
    the render that created the handler, which those updates do not touch.
    [currentIndex] is left where it was. *)
Definition finishReview (finalResults : list ItemResult) (s : Review) : Review :=
  {| currentIndex := currentIndex s;
     phase := results;
     itemResults :=
       if isReReview s then mergeResults (itemResults s) finalResults
       else finalResults;
     missedItems := List.filter failsThreshold finalResults;
     reviewQueue := None;
     isReReview := false;
     itemResultsRef := itemResultsRef s;
     attention := stopSession (attention s) |}.

(** Single-field updates of the component state. *)
Definition withCurrentIndex (k : nat) (s : Review) : Review :=
  {| currentIndex := k; phase := phase s; itemResults := itemResults s;
     missedItems := missedItems s; reviewQueue := reviewQueue s;
     isReReview := isReReview s; itemResultsRef := itemResultsRef s;
     attention := attention s |}.

Definition withPhase (p : Phase) (s : Review) : Review :=
  {| currentIndex := currentIndex s; phase := p; itemResults := itemResults s;
     missedItems := missedItems s; reviewQueue := reviewQueue s;
     isReReview := isReReview s; itemResultsRef := itemResultsRef s;
     attention := attention s |}.

Definition withItemResults (rs : list ItemResult) (s : Review) : Review :=
  {| currentIndex := currentIndex s; phase := phase s; itemResults := rs;
     missedItems := missedItems s; reviewQueue := reviewQueue s;
     isReReview := isReReview s; itemResultsRef := itemResultsRef s;
     attention := attention s |}.

Definition withAttention (att : Attention) (s : Review) : Review :=
  {| currentIndex := currentIndex s; phase := phase s; itemResults := itemResults s;
     missedItems := missedItems s; reviewQueue := reviewQueue s;
     isReReview := isReReview s; itemResultsRef := itemResultsRef s;
     attention := att |}.

(** [attention.stopTrackingItem(activeItemIndex)] as the two handlers call
    it.  With [activeItemIndex] undefined the lookup finds no record, since
    tracking is never started under that key. *)
Definition stopActive (nItems : nat) (now : Z) (s : Review)
    : option ItemResult * Attention :=
  match activeItemIndex nItems s with
  | Some i => stopTrackingItem i now (attention s)
  | None => (None, attention s)
  end.

(** [advanceItem].  [result] is appended through [setItemResults]; at the
    end of the queue [allResults] is built from the [itemResultsRef] mirror
    and handed to [finishReview]. *)
Definition advanceItem (nItems : nat) (now : Z) (s : Review) : Review :=
  let '(result, att) := stopActive nItems now s in
  let appended :=
    match result with
    | Some r => itemResults s ++ [r]
    | None => itemResults s
    end in
  let s1 := withAttention att (withItemResults appended s) in
  if Z.of_nat (currentIndex s) <? Z.of_nat (length (activeQueue nItems s)) - 1
  then withCurrentIndex (currentIndex s + 1) s1
  else
    let allResults :=
      match result with
      | Some r => itemResultsRef s ++ [r]
      | None => itemResultsRef s
      end in
    finishReview allResults s1.

(** [goBack]: the value returned by [stopTrackingItem] is dropped. *)
Definition goBack (nItems : nat) (now : Z) (s : Review) : Review :=
  if (0 <? currentIndex s)%nat
  then
    let '(_, att) := stopActive nItems now s in
    withCurrentIndex (currentIndex s - 1) (withAttention att s)
  else s.

Definition startReview (s : Review) : Review := withPhase reviewing s.

Definition startReReview (s : Review) : Review :=
  {| currentIndex := 0; phase := reviewing; itemResults := itemResults s;
     missedItems := missedItems s;
     reviewQueue := Some (map itemIndex (missedItems s));
     isReReview := true; itemResultsRef := itemResultsRef s;
     attention := attention s |}.

Definition resetReview (s : Review) : Review :=
  {| currentIndex := 0; phase := setup; itemResults := []; missedItems := [];
     reviewQueue := None; isReReview := false;
     itemResultsRef := itemResultsRef s; attention := attention s |}.

(** The effects that run after every render.  [itemResultsRef] is brought
    up to date.  The tracking effect lists the hook's return value among its
    dependencies, a fresh object on each render, so it runs every time: while
    reviewing, [startTrackingItem(activeItemIndex)] is called with the
    current time. *)
Definition render (nItems : nat) (now : Z) (s : Review) : Review :=
  let att :=
    match phase s, activeItemIndex nItems s with
    | reviewing, Some i => startTrackingItem i now (attention s)
    | _, _ => attention s
    end in
  {| currentIndex := currentIndex s; phase := phase s;
     itemResults := itemResults s; missedItems := missedItems s;
     reviewQueue := reviewQueue s; isReReview := isReReview s;
     itemResultsRef := itemResults s; attention := att |}.

(** The session effect, which runs once when the reviewing view with its
    video element first appears: the session is started and tracking of
    [activeQueue[0]] is started. *)
Definition sessionInit (nItems : nat) (now : Z) (s : Review) : Review :=
  if itemShown nItems s then
    let att := startSession (attention s) in
    match activeQueue nItems s !! 0%nat with
    | Some i => withAttention (startTrackingItem i now att) s
    | None => withAttention att s
    end
  else s.

(** What can happen to a mounted component: a click on one of its buttons,
    a firing of the 500 ms sampling interval, or a new snapshot from the
    metrics loop.  Each event carries the clock values it reads: [tHandler]
    in the click handler, [tEffect] in the effects of the render it causes. *)
Inductive Event : Type :=
  | StartReview (tEffect : Z)
  | AdvanceItem (tHandler tEffect : Z)
  | GoBack (tHandler tEffect : Z)
  | StartReReview (tEffect : Z)
  | ResetReview (tEffect : Z)
  | RecordTick
  | LiveUpdate (m : Live.t) (tEffect : Z).

Definition isReviewing (s : Review) : bool :=
  match phase s with reviewing => true | _ => false end.

(** One event, its re-render and the effects.  A click only happens on a
    button that the current view shows and does not disable.  The handlers
    that await ([startReview], [startReReview], [finishReview]) are taken as
    one step: the render that React may interpose before the continuation
    changes neither what the continuation computes nor the results. *)
Definition step (nItems : nat) (e : Event) (s : Review) : Review :=
  match e with
  | StartReview t =>
      match phase s with
      | setup => sessionInit nItems t (render nItems t (startReview s))
      | _ => s
      end
  | AdvanceItem th te =>
      if (isReviewing s && itemShown nItems s)%bool
      then render nItems te (advanceItem nItems th s)
      else s
  | GoBack th te =>
      if (isReviewing s && itemShown nItems s && negb (currentIndex s =? 0)%nat)%bool
      then render nItems te (goBack nItems th s)
      else s
  | StartReReview t =>
      match phase s, missedItems s with
      | results, _ :: _ => sessionInit nItems t (render nItems t (startReReview s))
      | _, _ => s
      end
  | ResetReview t =>
      match phase s with
      | results => render nItems t (resetReview s)
      | reviewing =>
          if itemShown nItems s then s else render nItems t (resetReview s)
      | setup => s
      end
  | RecordTick =>
      match phase s, activeItemIndex nItems s with
      | reviewing, Some i => withAttention (recordReading i (attention s)) s
      | _, _ => s
      end
  | LiveUpdate m t =>
      if isActive (attention s)
      then render nItems t (withAttention (setLiveMetrics m (attention s)) s)
      else s
  end.

Definition run (nItems : nat) (events : list Event) (s : Review) : Review :=
  fold_left (fun st e => step nItems e st) events s.

(** The index-keyed reads of the results view: an item's row shows
    [itemResults.find(r => r.itemIndex === idx)] and is marked missed when
    [missedItems.some(m => m.itemIndex === idx)]. *)
Definition resultOf (idx : nat) (s : Review) : option ItemResult :=
  List.find (fun r => (itemIndex r =? idx)%nat) (itemResults s).

Definition isMissed (idx : nat) (s : Review) : bool :=
  existsb (fun m => (itemIndex m =? idx)%nat) (missedItems s).

(** ** The estimator as the specification words it

    The second definition of the estimator, written from the formulas of the
    design document, against which [computeEngagement] is compared. *)

Definition clamp01 (v : float) : float := Num.max2 0%float (Num.min2 1%float v).

Definition spec_eyeOpenness (blinkLeft blinkRight : float) : float :=
  (1 - (blinkLeft + blinkRight) / 2)%float.

Definition spec_gazeScore
    (lookDownLeft lookDownRight lookOutLeft lookOutRight : float) : float :=
  Num.max2 0%float
    (1 - Num.Math_max [lookDownLeft; lookDownRight; lookOutLeft; lookOutRight] * 1.5)%float.

Definition spec_headFacing (noseTipX : float) : float :=
  Num.max2 0%float (1 - Num.Math_abs (noseTipX - 0.5) * 3)%float.

Definition spec_headTilt (foreheadY chinY : float) : float :=
  Num.min2 1%float (Num.Math_abs (foreheadY - chinY) / 0.25)%float.

Definition spec_engagement (eyeOpenness headFacing headTilt : float) : float :=
  clamp01 (eyeOpenness * 0.45 + headFacing * 0.35 + headTilt * 0.2)%float.

Definition spec_focus (gazeScore eyeOpenness headFacing : float) : float :=
  clamp01 (gazeScore * 0.5 + eyeOpenness * 0.3 + headFacing * 0.2)%float.

(** The arithmetic mean of a sequence of numbers: their sum, taken in
    sequence order from 0, divided by their count. *)
Definition floatSum (xs : list float) : float :=
  fold_left PrimFloat.add xs 0%float.

Definition arithmeticMean (xs : list float) : float :=
  (floatSum xs / Num.of_length (length xs))%float.

(** ** Sample inputs *)

(** A face of 153 landmarks: nose tip (1) on the centre line, forehead (10)
    and chin (152) 0.3 apart. *)
Definition sampleLandmarks : list Landmark.t :=
  map (fun i =>
         if (i =? 10)%nat then Landmark.mk 0.5 0.25 0
         else if (i =? 152)%nat then Landmark.mk 0.5 0.55 0
         else Landmark.mk 0.5 0.4 0)%float
      (seq 0 153).

Definition sampleBlendshapes : list Classifications :=
  [ {| categories := Some
         [ {| categoryName := "eyeBlinkLeft"; score := 0.5 |};
           {| categoryName := "eyeBlinkRight"; score := 0.25 |};
           {| categoryName := "eyeLookDownLeft"; score := 0.125 |};
           {| categoryName := "eyeLookOutRight"; score := 0.25 |} ] |} ].

Definition sampleFace : FaceLandmarkerResult :=
  {| faceLandmarks := Some [sampleLandmarks];
     faceBlendshapes := Some sampleBlendshapes |}.

(** A snapshot with the given engagement and focus. *)
Definition snapshot (e f : float) : Live.t :=
  Live.mk e f 0%float 0%float true.

(** Two items, walked forward: item 0 attended (0.8 / 0.75), item 1 not
    (0.2 / 0.2).  No sampling tick fires, so each result is the snapshot at
    the time of the click. *)
Definition fullPassEvents : list Event :=
  [ LiveUpdate (snapshot 0.8 0.75) 100; AdvanceItem 200 200;
    LiveUpdate (snapshot 0.2 0.2) 300; AdvanceItem 400 400 ].

Definition fullPassTrace : list Event := StartReview 0 :: fullPassEvents.

(** The same pass followed by a re-review of the flagged item 1, this time
    attended (0.9 / 0.9). *)
Definition subPassEvents : list Event :=
  [ LiveUpdate (snapshot 0.9 0.9) 600; AdvanceItem 700 700 ].

Definition reReviewTrace : list Event :=
  fullPassTrace ++ StartReReview 500 :: subPassEvents.

(** Two items, both unattended in the full pass (0.2 / 0.2), then a
    re-review of both, attended (0.9 / 0.9), in which the user steps back
    from item 1 to item 0 once. *)
Definition reReviewBackTrace : list Event :=
  [ StartReview 0;
    LiveUpdate (snapshot 0.2 0.2) 100; AdvanceItem 200 200; AdvanceItem 400 400;
    StartReReview 500;
    LiveUpdate (snapshot 0.9 0.9) 600; AdvanceItem 700 700;
    GoBack 800 800; AdvanceItem 900 900; AdvanceItem 1000 1000 ].

(** Two items, with one step back: item 0 is left attended, revisited and
    left unattended, then item 1 is attended. *)
Definition backAndForthTrace : list Event :=
  [ StartReview 0;
    LiveUpdate (snapshot 0.8 0.75) 100; AdvanceItem 200 200;
    GoBack 300 300;
    LiveUpdate (snapshot 0.2 0.2) 400; AdvanceItem 500 500;
    LiveUpdate (snapshot 0.9 0.9) 600; AdvanceItem 700 700 ].

(** The session after the first advance of a two-item pass: position 1. *)
Definition atSecondItem : Review :=
  run 2 [ StartReview 0; LiveUpdate (snapshot 0.8 0.75) 100; AdvanceItem 200 200 ]
      initialReview.

(** A tracker holding one open record, for item 3, with two readings. *)
Definition sampleData : TrackingData :=
  {| readings := [snapshot 0.5 0.25; snapshot 1 0.75]; startTime := 1000 |}.

Definition sampleAttention : Attention :=
  {| liveMetrics := snapshot 0.125 0.125;
     itemMetrics := {[ 3%nat := sampleData ]};
     isActive := true |}.

(** The session after the first advance of a two-item pass in which two
    sampling ticks fired on item 0: position 1, and the record of item 0
    still holds its two readings. *)
Definition atSecondItemSampled : Review :=
  run 2 [ StartReview 0; LiveUpdate (snapshot 0.8 0.75) 100;
          RecordTick; RecordTick; AdvanceItem 1200 1200 ]
      initialReview.

(** ** Events and invariants of a pass *)

Definition isAdvance (e : Event) : bool :=
  match e with AdvanceItem _ _ => true | _ => false end.

(** The events of a pass walked forward only: advancing, sampling ticks and
    snapshot updates. *)
Definition forwardEvent (e : Event) : bool :=
  match e with
  | AdvanceItem _ _ | RecordTick | LiveUpdate _ _ => true
  | _ => false
  end.

(** The events of a pass with free navigation: the above and going back. *)
Definition navigationEvent (e : Event) : bool :=
  match e with
  | AdvanceItem _ _ | GoBack _ _ | RecordTick | LiveUpdate _ _ => true
  | _ => false
  end.

Definition countAdvances (es : list Event) : nat :=
  length (List.filter isAdvance es).

(** A full pass walked forward, standing at position [k]: the results so
    far are those of items [0 .. k-1], in order, and item [k] has an open
    record. *)
Record ForwardAt (nItems k : nat) (s : Review) : Prop := {
  fwd_phase : phase s = reviewing;
  fwd_queue : reviewQueue s = None;
  fwd_full : isReReview s = false;
  fwd_index : currentIndex s = k;
  fwd_bound : (k < nItems)%nat;
  fwd_results : map itemIndex (itemResults s) = seq 0 k;
  fwd_ref : itemResultsRef s = itemResults s;
  fwd_open : is_Some (itemMetrics (attention s) !! k)
}.

(** A completed full pass with one result per item. *)
Record FullPassDone (nItems : nat) (s : Review) : Prop := {
  done_phase : phase s = results;
  done_results : map itemIndex (itemResults s) = seq 0 nItems;
  done_missed : missedItems s = List.filter failsThreshold (itemResults s);
  done_ref : itemResultsRef s = itemResults s;
  done_inactive : isActive (attention s) = false
}.

(** The queue of a sub re-review started from the results state [s0]. *)
Definition subQueue (s0 : Review) : list nat := map itemIndex (missedItems s0).

(** A sub re-review under way, started from the results state [s0]: the
    results of [s0] are still there, followed by whatever the sub-pass has
    appended (results of queued items), the mirror is up to date and the
    active item has an open record. *)
Record SubReviewOf (nItems : nat) (s0 s : Review) : Prop := {
  sub_phase : phase s = reviewing;
  sub_flag : isReReview s = true;
  sub_queue : reviewQueue s = Some (subQueue s0);
  sub_results :
    exists extra,
      itemResults s = itemResults s0 ++ extra
      /\ Forall (fun r => In (itemIndex r) (subQueue s0)) extra;
  sub_ref : itemResultsRef s = itemResults s;
  sub_open :
    forall i, activeItemIndex nItems s = Some i ->
              is_Some (itemMetrics (attention s) !! i)
}.

(** A sub re-review that has ended.  With [extra] the results appended
    during the sub-pass, the list handed to [finishReview] and the list it
    is merged into are both the results of [s0] followed by [extra]. *)
Record SubReviewDone (s0 s : Review) : Prop := {
  subdone_phase : phase s = results;
  subdone_outcome :
    exists extra,
      extra <> []
      /\ Forall (fun r => In (itemIndex r) (subQueue s0)) extra
      /\ itemResults s =
           mergeResults (itemResults s0 ++ extra) (itemResults s0 ++ extra)
      /\ missedItems s = List.filter failsThreshold (itemResults s0 ++ extra)
}.

(** ** Reading a number's place against the unit interval *)

(** [0 <= v && v <= 1], as JavaScript evaluates it: false on NaN. *)
Definition inUnit (v : float) : bool :=
  (PrimFloat.leb 0%float v && PrimFloat.leb v 1%float)%bool.

(** ** Using the hook directly *)

(** One sampling round as the hook's interface allows it: a new snapshot
    arrives ([setLiveMetrics]) and is recorded for an item
    ([recordReading]). *)
Definition sampleRound (itemIndex : nat) (att : Attention) (m : Live.t)
    : Attention :=
  recordReading itemIndex (setLiveMetrics m att).

(** The last result carrying index [idx] in a list of results. *)
Definition lastResultOf (idx : nat) (rs : list ItemResult) : option ItemResult :=
  List.find (fun r => (itemIndex r =? idx)%nat) (rev rs).

(** Stored results for items 0 and 1, and newer results for items 1 and 2. *)
Definition storedResults : list ItemResult :=
  [ {| itemIndex := 0; avgEngagement := 0.5; avgFocus := 0.5; timeSpentMs := 10 |};
    {| itemIndex := 1; avgEngagement := 0.25; avgFocus := 0.5; timeSpentMs := 10 |} ].

Definition newerResults : list ItemResult :=
  [ {| itemIndex := 1; avgEngagement := 1; avgFocus := 1; timeSpentMs := 20 |};
    {| itemIndex := 2; avgEngagement := 1; avgFocus := 1; timeSpentMs := 20 |} ].

(** ** What every state of a session satisfies *)

(** The part that concerns the component's own state variables: result
    indices are item indices of the briefing; flagged entries fail the
    threshold and their indices have results; the setup screen is only
    shown with everything cleared; a queue is set exactly during a
    re-review; and while reviewing the position is inside the queue. *)
Record Shape (nItems : nat) (s : Review) : Prop := {
  shape_bound :
    Forall (fun i => (i < nItems)%nat) (map itemIndex (itemResults s));
  shape_missed_fail :
    Forall (fun m => failsThreshold m = true) (missedItems s);
  shape_missed_keys :
    Forall (fun m => In (itemIndex m) (map itemIndex (itemResults s)))
           (missedItems s);
  shape_setup :
    phase s = setup ->
    currentIndex s = 0%nat /\ itemResults s = [] /\ missedItems s = [];
  shape_queue :
    match reviewQueue s with
    | Some q =>
        isReReview s = true /\ phase s = reviewing
        /\ Forall (fun i => (i < nItems)%nat) q
    | None => isReReview s = false
    end;
  shape_position :
    phase s = reviewing ->
    (currentIndex s < length (activeQueue nItems s))%nat
}.

(** The whole: the mirror is up to date, the metrics session runs exactly
    while reviewing, and while reviewing the active item has a record whose
    readings are all copies of the current snapshot. *)
Record Coherent (nItems : nat) (s : Review) : Prop := {
  coh_shape : Shape nItems s;
  coh_ref : itemResultsRef s = itemResults s;
  coh_open :
    phase s = reviewing ->
    forall i, activeItemIndex nItems s = Some i ->
    exists data,
      itemMetrics (attention s) !! i = Some data
      /\ Forall (fun r => r = liveMetrics (attention s)) (readings data);
  coh_active : isActive (attention s) = isReviewing s
}.

(** The events that lead to position 1 of a two-item pass. *)
Definition toSecondItem : list Event :=
  [ StartReview 0; LiveUpdate (snapshot 0.8 0.75) 100; AdvanceItem 200 200 ].

(** The same with two sampling ticks on item 1 once it is reached. *)
Definition toSecondItemSampled : list Event :=
  toSecondItem ++ [ RecordTick; RecordTick ].

(** A session on a briefing without items, before or after the start
    button: nothing recorded, nothing flagged, the hook untouched. *)
Record Idle (s : Review) : Prop := {
  idle_phase : phase s <> results;
  idle_index : currentIndex s = 0%nat;
  idle_results : itemResults s = [];
  idle_missed : missedItems s = [];
  idle_queue : reviewQueue s = None;
  idle_attention : attention s = initialAttention
}.

(** * Properties *)

(** ** The estimator *)

(** C9: without a face (no landmark array, or an empty one) the estimator
    returns exactly [{ engagement: 0, focus: 0, faceDetected: false }] and
    does not throw. *)
Theorem computeEngagement_no_face (result : FaceLandmarkerResult) :
  faceLandmarks result = None \/ faceLandmarks result = Some [] ->
  computeEngagement result = Returned (Metrics.mk 0%float 0%float false).
Proof.
  unfold computeEngagement. intros [-> | ->]; reflexivity.
Qed.

Lemma computeEngagement_no_face_witness :
  computeEngagement {| faceLandmarks := Some []; faceBlendshapes := None |}
  = Returned (Metrics.mk 0%float 0%float false).
Proof.
  apply (computeEngagement_no_face {| faceLandmarks := Some []; faceBlendshapes := None |}).
  right. reflexivity.
Defined.

(** The two-argument calls of [Math.max] and [Math.min] in the estimator
    all have a constant first argument, on which the variadic fold computes
    to the binary operation. *)
Lemma Math_max_0 (v : float) : Num.Math_max [0%float; v] = Num.max2 0%float v.
Proof. reflexivity. Qed.

Lemma Math_min_1 (v : float) : Num.Math_min [1%float; v] = Num.min2 1%float v.
Proof. reflexivity. Qed.

Lemma clamp01_code (v : float) :
  Num.Math_max [0%float; Num.Math_min [1%float; v]] = clamp01 v.
Proof. reflexivity. Qed.

(** C8: on a detected face (a landmark array holding the nose tip, chin and
    forehead landmarks) the estimator returns [faceDetected = true] with
    engagement and focus given by the documented formulas over eye
    openness, gaze score, head facing and head tilt, each computed from the
    blendshape scores and landmarks as documented. *)
Theorem computeEngagement_formulas
    (result : FaceLandmarkerResult) (landmarks : list Landmark.t)
    (others : list (list Landmark.t)) (noseTip chin forehead : Landmark.t) :
  faceLandmarks result = Some (landmarks :: others) ->
  landmarks !! 1%nat = Some noseTip ->
  landmarks !! 152%nat = Some chin ->
  landmarks !! 10%nat = Some forehead ->
  let value := getBlendshapeValue (faceBlendshapes result) in
  let eyeOpenness :=
    spec_eyeOpenness (value "eyeBlinkLeft") (value "eyeBlinkRight") in
  let gazeScore :=
    spec_gazeScore (value "eyeLookDownLeft") (value "eyeLookDownRight")
                   (value "eyeLookOutLeft") (value "eyeLookOutRight") in
  let headFacing := spec_headFacing (Landmark.x noseTip) in
  let headTilt := spec_headTilt (Landmark.y forehead) (Landmark.y chin) in
  computeEngagement result =
    Returned (Metrics.mk (spec_engagement eyeOpenness headFacing headTilt)
                         (spec_focus gazeScore eyeOpenness headFacing)
                         true).
Proof.
  intros Hface Hnose Hchin Hforehead.
  unfold computeEngagement.
  rewrite Hface, Hnose, Hchin, Hforehead.
  cbv zeta.
  rewrite !clamp01_code, !Math_max_0, Math_min_1.
  unfold spec_engagement, spec_focus, spec_eyeOpenness, spec_gazeScore,
    spec_headFacing, spec_headTilt.
  reflexivity.
Qed.

Lemma computeEngagement_formulas_witness :
  computeEngagement sampleFace =
    Returned (Metrics.mk 0.83125%float 0.7%float true).
Proof.
  rewrite (computeEngagement_formulas sampleFace sampleLandmarks []
             (Landmark.mk 0.5 0.4 0) (Landmark.mk 0.5 0.55 0)
             (Landmark.mk 0.5 0.25 0));
    vm_compute; reflexivity.
Defined.

(** A face whose landmark array stops short of the chin landmark makes the
    estimator throw. *)
Example computeEngagement_short_face :
  computeEngagement {| faceLandmarks := Some [take 100 sampleLandmarks];
                       faceBlendshapes := None |} = TypeError.
Proof. vm_compute. reflexivity. Qed.

(** ** The tracker *)

Lemma sumEngagement_floatSum (rs : list Live.t) :
  sumEngagement rs = floatSum (map Live.engagement rs).
Proof.
  unfold sumEngagement, floatSum. generalize 0%float.
  induction rs as [| r rs IH]; intros acc; simpl; [reflexivity | apply IH].
Qed.

Lemma sumFocus_floatSum (rs : list Live.t) :
  sumFocus rs = floatSum (map Live.focus rs).
Proof.
  unfold sumFocus, floatSum. generalize 0%float.
  induction rs as [| r rs IH]; intros acc; simpl; [reflexivity | apply IH].
Qed.

(** C6: stopping an item whose record holds at least one reading returns
    the arithmetic means of the readings' engagement and focus, and the
    time since the record's start; with no reading it returns the live
    snapshot's engagement and focus instead. *)
Theorem stopTrackingItem_averages
    (i : nat) (now : Z) (att : Attention) (data : TrackingData) :
  itemMetrics att !! i = Some data ->
  (readings data <> [] ->
   fst (stopTrackingItem i now att) =
     Some {| itemIndex := i;
             avgEngagement := arithmeticMean (map Live.engagement (readings data));
             avgFocus := arithmeticMean (map Live.focus (readings data));
             timeSpentMs := now - startTime data |})
  /\ (readings data = [] ->
      fst (stopTrackingItem i now att) =
        Some {| itemIndex := i;
                avgEngagement := Live.engagement (liveMetrics att);
                avgFocus := Live.focus (liveMetrics att);
                timeSpentMs := now - startTime data |}).
Proof.
  intros Hdata. unfold stopTrackingItem. rewrite Hdata.
  destruct (readings data) as [| r rs] eqn:Hrs.
  - split; [intros Hne; contradiction | intros _; reflexivity].
  - split; [intros _ | intros Hnil; discriminate].
    unfold arithmeticMean.
    rewrite sumEngagement_floatSum, sumFocus_floatSum, length_map, length_map.
    reflexivity.
Qed.

Lemma stopTrackingItem_averages_witness :
  fst (stopTrackingItem 3 1500 sampleAttention) =
    Some {| itemIndex := 3; avgEngagement := 0.75; avgFocus := 0.5;
            timeSpentMs := 500 |}.
Proof.
  destruct (stopTrackingItem_averages 3 1500 sampleAttention sampleData)
    as [Hmean _]; [reflexivity |].
  rewrite Hmean; [vm_compute; reflexivity | discriminate].
Defined.

(** C7: stopping an item that has no tracking record returns nothing and
    leaves the tracker as it was. *)
Theorem stopTrackingItem_no_record (i : nat) (now : Z) (att : Attention) :
  itemMetrics att !! i = None ->
  stopTrackingItem i now att = (None, att).
Proof.
  intros Hnone. unfold stopTrackingItem. rewrite Hnone. reflexivity.
Qed.

Lemma stopTrackingItem_no_record_witness :
  stopTrackingItem 7 1500 sampleAttention = (None, sampleAttention).
Proof.
  apply (stopTrackingItem_no_record 7 1500 sampleAttention). reflexivity.
Defined.

(** Stopping never writes to the tracker, record or no record. *)
Lemma stopTrackingItem_state (i : nat) (now : Z) (att : Attention) :
  snd (stopTrackingItem i now att) = att.
Proof.
  unfold stopTrackingItem.
  destruct (itemMetrics att !! i) as [data |]; [| reflexivity].
  destruct (readings data); reflexivity.
Qed.

Lemma stopActive_state (nItems : nat) (now : Z) (s : Review) :
  snd (stopActive nItems now s) = attention s.
Proof.
  unfold stopActive.
  destruct (activeItemIndex nItems s); [apply stopTrackingItem_state | reflexivity].
Qed.

(** ** Navigation *)

Lemma itemShown_active (nItems : nat) (s : Review) :
  itemShown nItems s = true ->
  exists i, activeItemIndex nItems s = Some i /\ (i < nItems)%nat.
Proof.
  unfold itemShown. destruct (activeItemIndex nItems s) as [i |]; [| discriminate].
  intros Hlt. exists i. split; [reflexivity | by apply Nat.ltb_lt].
Qed.

Lemma activeItemIndex_render (nItems : nat) (now : Z) (s : Review) :
  activeItemIndex nItems (render nItems now s) = activeItemIndex nItems s.
Proof. reflexivity. Qed.

(** The effects of a render while reviewing open a fresh record for the
    active item and touch nothing else in the tracker. *)
Lemma render_reviewing (nItems : nat) (now : Z) (s : Review) (j : nat) :
  phase s = reviewing ->
  activeItemIndex nItems s = Some j ->
  itemMetrics (attention (render nItems now s)) =
    <[j := {| readings := []; startTime := now |}]> (itemMetrics (attention s))
  /\ liveMetrics (attention (render nItems now s)) = liveMetrics (attention s).
Proof.
  intros Hphase Hactive. unfold render. rewrite Hphase, Hactive. simpl.
  split; reflexivity.
Qed.

(** What [goBack] does to an enabled session: only the position moves. *)
Lemma goBack_enabled (nItems : nat) (now : Z) (s : Review) :
  (0 < currentIndex s)%nat ->
  goBack nItems now s = withCurrentIndex (currentIndex s - 1) s.
Proof.
  intros Hpos. unfold goBack.
  apply Nat.ltb_lt in Hpos. rewrite Hpos.
  pose proof (stopActive_state nItems now s) as Hatt.
  destruct (stopActive nItems now s) as [result att]. simpl in Hatt. subst att.
  destruct s; reflexivity.
Qed.

(** An enabled step back: the session as a whole after the click, its
    re-render and the effects. *)
Lemma goBack_step (nItems : nat) (tHandler tEffect : Z) (s : Review) :
  isReviewing s = true ->
  itemShown nItems s = true ->
  (0 < currentIndex s)%nat ->
  let s' := step nItems (GoBack tHandler tEffect) s in
  phase s' = reviewing
  /\ currentIndex s' = (currentIndex s - 1)%nat
  /\ itemResults s' = itemResults s
  /\ missedItems s' = missedItems s
  /\ reviewQueue s' = reviewQueue s
  /\ isReReview s' = isReReview s
  /\ exists j,
       activeItemIndex nItems s' = Some j
       /\ itemMetrics (attention s') =
            <[j := {| readings := []; startTime := tEffect |}]>
              (itemMetrics (attention s))
       /\ liveMetrics (attention s') = liveMetrics (attention s).
Proof.
  intros Hrev Hshown Hpos s'. subst s'. unfold step. rewrite Hrev, Hshown. simpl.
  assert (Hne : (currentIndex s =? 0)%nat = false) by (apply Nat.eqb_neq; lia).
  rewrite Hne. simpl. rewrite (goBack_enabled nItems tHandler s Hpos).
  assert (Hphase : phase s = reviewing).
  { unfold isReviewing in Hrev. destruct (phase s); done. }
  destruct (itemShown_active nItems s Hshown) as (i & Hactive & _).
  assert (Hj : is_Some (activeQueue nItems s !! (currentIndex s - 1)%nat)).
  { apply lookup_lt_is_Some.
    apply lookup_lt_Some in Hactive. lia. }
  destruct Hj as [j Hj].
  repeat (split; [done |]).
  exists j. split; [exact Hj |].
  apply (render_reviewing nItems tEffect
           (withCurrentIndex (currentIndex s - 1) s) j); [exact Hphase | exact Hj].
Qed.

(** C5, as the code has it: with the position above 0, going back keeps the
    session in the reviewing phase, moves the position down by one, leaves
    the results, the flagged items and the queue as they were (the stop
    result of the item left is dropped, and its record stays in the
    tracker), and opens a fresh record for the item now at the position; at
    position 0 going back does nothing. *)
Theorem goBack_transition (nItems : nat) (tHandler tEffect : Z) (s : Review) :
  isReviewing s = true ->
  itemShown nItems s = true ->
  let s' := step nItems (GoBack tHandler tEffect) s in
  ((0 < currentIndex s)%nat ->
   phase s' = reviewing
   /\ currentIndex s' = (currentIndex s - 1)%nat
   /\ itemResults s' = itemResults s
   /\ missedItems s' = missedItems s
   /\ reviewQueue s' = reviewQueue s
   /\ isReReview s' = isReReview s
   /\ exists j,
        activeItemIndex nItems s' = Some j
        /\ itemMetrics (attention s') =
             <[j := {| readings := []; startTime := tEffect |}]>
               (itemMetrics (attention s))
        /\ liveMetrics (attention s') = liveMetrics (attention s))
  /\ (currentIndex s = 0%nat -> s' = s).
Proof.
  intros Hrev Hshown s'. split.
  - intros Hpos. exact (goBack_step nItems tHandler tEffect s Hrev Hshown Hpos).
  - intros Hzero. subst s'. unfold step.
    rewrite Hrev, Hshown, Hzero. reflexivity.
Qed.

Lemma goBack_transition_witness :
  phase (step 2 (GoBack 300 300) atSecondItem) = reviewing
  /\ currentIndex (step 2 (GoBack 300 300) atSecondItem) = 0%nat
  /\ itemResults (step 2 (GoBack 300 300) atSecondItem) = itemResults atSecondItem.
Proof.
  destruct (goBack_transition 2 300 300 atSecondItem) as [Hback _];
    [vm_compute; reflexivity | vm_compute; reflexivity |].
  destruct Hback as (Hphase & Hindex & Hresults & _); [vm_compute; lia |].
  split; [exact Hphase |]. split; [exact Hindex | exact Hresults].
Defined.

(** C5, as worded, fails: at position 1 of a two-item pass the current item
    1 has an open record and stopping it yields a result, yet after going
    back the results hold no entry for item 1. *)
Lemma goBack_result_not_recorded :
  isReviewing atSecondItem = true
  /\ currentIndex atSecondItem = 1%nat
  /\ activeItemIndex 2 atSecondItem = Some 1%nat
  /\ fst (stopActive 2 300 atSecondItem) =
       Some {| itemIndex := 1; avgEngagement := 0.8; avgFocus := 0.75;
               timeSpentMs := 100 |}
  /\ resultOf 1 (step 2 (GoBack 300 300) atSecondItem) = None
  /\ is_Some (itemMetrics (attention (step 2 (GoBack 300 300) atSecondItem)) !! 1%nat).
Proof.
  repeat split; try (vm_compute; reflexivity).
  vm_compute. eexists. reflexivity.
Qed.

(** C10: starting to track an item puts a record with no readings and the
    current time as its start under the item's index, whatever was there,
    and touches no other record; so when going back re-renders the session,
    the item now at the position gets such a fresh record and the readings
    of its earlier window are gone. *)
Theorem startTrackingItem_restarts (i : nat) (now : Z) (att : Attention) :
  itemMetrics (startTrackingItem i now att) !! i =
    Some {| readings := []; startTime := now |}
  /\ (forall j, j <> i ->
        itemMetrics (startTrackingItem i now att) !! j = itemMetrics att !! j)
  /\ liveMetrics (startTrackingItem i now att) = liveMetrics att
  /\ (forall nItems tHandler tEffect s,
        isReviewing s = true ->
        itemShown nItems s = true ->
        (0 < currentIndex s)%nat ->
        activeQueue nItems s !! (currentIndex s - 1)%nat = Some i ->
        let s' := step nItems (GoBack tHandler tEffect) s in
        activeItemIndex nItems s' = Some i
        /\ itemMetrics (attention s') !! i =
             Some {| readings := []; startTime := tEffect |}).
Proof.
  split; [| split; [| split]].
  - unfold startTrackingItem. simpl. apply lookup_insert_eq.
  - intros j Hne. unfold startTrackingItem. simpl. by apply lookup_insert_ne.
  - reflexivity.
  - intros nItems tHandler tEffect s Hrev Hshown Hpos Hprev s'.
    destruct (goBack_step nItems tHandler tEffect s Hrev Hshown Hpos)
      as (_ & Hindex & _ & _ & Hqueue & _ & j & Hactive & Hmap & _).
    fold s' in Hindex, Hqueue, Hactive, Hmap.
    assert (Hj : j = i).
    { unfold activeItemIndex, activeQueue in Hactive.
      rewrite Hindex, Hqueue in Hactive.
      unfold activeQueue in Hprev. congruence. }
    subst j. split; [exact Hactive |].
    rewrite Hmap. apply lookup_insert_eq.
Qed.

Lemma startTrackingItem_restarts_witness :
  itemMetrics (attention atSecondItemSampled) !! 0%nat =
    Some {| readings := [snapshot 0.8 0.75; snapshot 0.8 0.75]; startTime := 100 |}
  /\ itemMetrics (attention (step 2 (GoBack 1300 1400) atSecondItemSampled)) !! 0%nat =
       Some {| readings := []; startTime := 1400 |}.
Proof.
  split; [vm_compute; reflexivity |].
  destruct (startTrackingItem_restarts 0 1400 initialAttention)
    as (_ & _ & _ & Hrevisit).
  apply (Hrevisit 2%nat 1300 1400 atSecondItemSampled);
    first [vm_compute; reflexivity | vm_compute; lia].
Defined.

(** ** Passes that go wrong *)

(** C3 on a pass with one step back: two items, yet three results, two of
    them for item 0. *)
Theorem full_pass_with_back_duplicates :
  phase (run 2 backAndForthTrace initialReview) = results
  /\ map itemIndex (itemResults (run 2 backAndForthTrace initialReview)) = [0; 0; 1]%nat
  /\ length (itemResults (run 2 backAndForthTrace initialReview)) = 3%nat.
Proof. repeat split; vm_compute; reflexivity. Qed.

(** C1 on a re-review of item 1 that is attended this time: the new result
    of item 1 passes both thresholds, and item 1 is flagged all the same,
    through its result of the full pass. *)
Theorem reReview_keeps_stale_flag :
  phase (run 2 reReviewTrace initialReview) = results
  /\ map itemIndex (missedItems (run 2 fullPassTrace initialReview)) = [1%nat]
  /\ resultOf 1 (run 2 reReviewTrace initialReview) =
       Some {| itemIndex := 1; avgEngagement := 0.9; avgFocus := 0.9;
               timeSpentMs := 100 |}
  /\ failsThreshold {| itemIndex := 1; avgEngagement := 0.9; avgFocus := 0.9;
                       timeSpentMs := 100 |} = false
  /\ isMissed 1 (run 2 reReviewTrace initialReview) = true
  /\ missedItems (run 2 reReviewTrace initialReview) =
       missedItems (run 2 fullPassTrace initialReview).
Proof. repeat split; vm_compute; reflexivity. Qed.

(** C2 on the same re-review: the results go from one entry per item to
    two entries for the re-reviewed item 1, the entry of item 0 being left
    as it was.  On a re-review of two items with one step back, item 0 goes
    from one entry to three. *)
Theorem reReview_duplicates_entry :
  map itemIndex (itemResults (run 2 fullPassTrace initialReview)) = [0; 1]%nat
  /\ map itemIndex (itemResults (run 2 reReviewTrace initialReview)) = [0; 1; 1]%nat
  /\ itemResults (run 2 reReviewTrace initialReview) !! 0%nat =
       itemResults (run 2 fullPassTrace initialReview) !! 0%nat
  /\ map itemIndex (itemResults (run 2 (take 4 reReviewBackTrace) initialReview))
       = [0; 1]%nat
  /\ phase (run 2 reReviewBackTrace initialReview) = results
  /\ map itemIndex (itemResults (run 2 reReviewBackTrace initialReview))
       = [0; 1; 0; 0; 1]%nat.
Proof. repeat split; vm_compute; reflexivity. Qed.

(** C4 at the end of two passes.  After the re-review every result entry of
    item 1 passes both thresholds while item 1 is in the flagged set; after
    the full pass with a step back the result shown for item 0 passes both
    thresholds while item 0 is in the flagged set. *)
Theorem flagged_member_passing_threshold :
  (phase (run 2 reReviewTrace initialReview) = results
   /\ isMissed 1 (run 2 reReviewTrace initialReview) = true
   /\ forallb (fun r => negb ((itemIndex r =? 1)%nat && failsThreshold r))
              (itemResults (run 2 reReviewTrace initialReview)) = true)
  /\ (phase (run 2 backAndForthTrace initialReview) = results
      /\ isMissed 0 (run 2 backAndForthTrace initialReview) = true
      /\ (failsThreshold <$> resultOf 0 (run 2 backAndForthTrace initialReview))
         = Some false).
Proof. repeat split; vm_compute; reflexivity. Qed.

(** ** A full pass walked forward *)

Lemma stopTrackingItem_open (i : nat) (now : Z) (att : Attention) :
  is_Some (itemMetrics att !! i) ->
  exists r, stopTrackingItem i now att = (Some r, att) /\ itemIndex r = i.
Proof.
  intros [data Hdata]. unfold stopTrackingItem. rewrite Hdata.
  destruct (readings data); eexists; split; reflexivity.
Qed.

Section Forward.

Variable nItems : nat.

Lemma forward_active (k : nat) (s : Review) :
  ForwardAt nItems k s ->
  activeQueue nItems s = seq 0 nItems
  /\ activeItemIndex nItems s = Some k
  /\ itemShown nItems s = true
  /\ isReviewing s = true.
Proof.
  intros [Hphase Hqueue _ Hindex Hbound _ _ _].
  assert (Hq : activeQueue nItems s = seq 0 nItems).
  { unfold activeQueue. rewrite Hqueue. reflexivity. }
  assert (Ha : activeItemIndex nItems s = Some k).
  { unfold activeItemIndex. rewrite Hq, Hindex. by apply lookup_seq_lt. }
  repeat split; [exact Hq | exact Ha | |].
  - unfold itemShown. rewrite Ha. by apply Nat.ltb_lt.
  - unfold isReviewing. rewrite Hphase. reflexivity.
Qed.

Lemma forward_start (t : Z) :
  (0 < nItems)%nat ->
  ForwardAt nItems 0 (step nItems (StartReview t) initialReview).
Proof.
  intros Hpos. destruct nItems as [| n']; [lia |].
  constructor; try reflexivity; [lia |].
  simpl. rewrite lookup_insert_eq. by eexists.
Qed.

Lemma forward_tick (k : nat) (s : Review) :
  ForwardAt nItems k s -> ForwardAt nItems k (step nItems RecordTick s).
Proof.
  intros Hfwd. destruct (forward_active k s Hfwd) as (_ & Ha & _ & _).
  destruct Hfwd as [Hphase Hqueue Hfull Hindex Hbound Hres Href [data Hdata]].
  unfold step. rewrite Hphase, Ha.
  constructor; try done.
  simpl. unfold recordReading. rewrite Hdata. simpl.
  rewrite lookup_insert_eq. by eexists.
Qed.

Lemma forward_update (k : nat) (m : Live.t) (t : Z) (s : Review) :
  ForwardAt nItems k s -> ForwardAt nItems k (step nItems (LiveUpdate m t) s).
Proof.
  intros Hfwd. destruct (forward_active k s Hfwd) as (_ & Ha & _ & _).
  unfold step. destruct (isActive (attention s)); [| exact Hfwd].
  destruct Hfwd as [Hphase Hqueue Hfull Hindex Hbound Hres Href Hopen].
  constructor; try done.
  unfold render. simpl. rewrite Hphase.
  change (activeItemIndex nItems
            (withAttention (setLiveMetrics m (attention s)) s))
    with (activeItemIndex nItems s).
  rewrite Ha. simpl. rewrite lookup_insert_eq. by eexists.
Qed.

(** Advancing from position [k]: the result of item [k] is appended; below
    the last position the pass moves on, at the last position it ends. *)
Lemma forward_advance (k : nat) (th te : Z) (s : Review) :
  ForwardAt nItems k s ->
  ((S k < nItems)%nat ->
   ForwardAt nItems (S k) (step nItems (AdvanceItem th te) s))
  /\ (S k = nItems ->
      FullPassDone nItems (step nItems (AdvanceItem th te) s)).
Proof.
  intros Hfwd. destruct (forward_active k s Hfwd) as (Hq & Ha & Hshown & Hrev).
  destruct Hfwd as [Hphase Hqueue Hfull Hindex Hbound Hres Href Hopen].
  destruct (stopTrackingItem_open k th (attention s) Hopen) as (r & Hstop & Hr).
  unfold step. rewrite Hrev, Hshown. simpl.
  unfold advanceItem, stopActive. rewrite Ha, Hstop, Hq, length_seq, Hindex.
  assert (Happ : map itemIndex (itemResults s ++ [r]) = seq 0 (S k)).
  { rewrite map_app, Hres, seq_S. simpl. by rewrite Hr. }
  split.
  - intros Hlt.
    assert (Hcond : (Z.of_nat k <? Z.of_nat nItems - 1) = true)
      by (apply Z.ltb_lt; lia).
    rewrite Hcond.
    constructor; simpl; try done.
    + by rewrite Nat.add_1_r.
    + rewrite Hphase.
      unfold activeItemIndex, activeQueue. simpl. rewrite Hqueue.
      rewrite Nat.add_1_r, lookup_seq_lt by done. simpl.
      rewrite lookup_insert_eq. by eexists.
  - intros Hlast.
    assert (Hcond : (Z.of_nat k <? Z.of_nat nItems - 1) = false)
      by (apply Z.ltb_ge; lia).
    rewrite Hcond.
    constructor; simpl; rewrite ?Hfull, ?Href; try done.
    by rewrite Happ, Hlast.
Qed.

Lemma done_step (e : Event) (s : Review) :
  forwardEvent e = true ->
  FullPassDone nItems s -> step nItems e s = s.
Proof.
  intros He [Hphase _ _ _ Hinactive].
  destruct e; try discriminate; unfold step.
  - unfold isReviewing. rewrite Hphase. reflexivity.
  - rewrite Hphase. reflexivity.
  - rewrite Hinactive. reflexivity.
Qed.

Lemma done_run (es : list Event) (s : Review) :
  forallb forwardEvent es = true ->
  FullPassDone nItems s -> run nItems es s = s.
Proof.
  unfold run. induction es as [| e es IH]; intros Hes Hdone; [reflexivity |].
  simpl in Hes. apply andb_prop in Hes as [He Hes]. simpl.
  rewrite (done_step e s He Hdone). by apply IH.
Qed.

Lemma forward_run (es : list Event) (k : nat) (s : Review) :
  forallb forwardEvent es = true ->
  (nItems - k <= countAdvances es)%nat ->
  ForwardAt nItems k s ->
  FullPassDone nItems (run nItems es s).
Proof.
  revert k s. induction es as [| e es IH]; intros k s Hes Hcount Hfwd.
  - pose proof (fwd_bound _ _ _ Hfwd). unfold countAdvances in Hcount.
    simpl in Hcount. lia.
  - simpl in Hes. apply andb_prop in Hes as [He Hes].
    change (run nItems (e :: es) s) with (run nItems es (step nItems e s)).
    destruct e as [| th te | | | | | m t]; try discriminate.
    + destruct (forward_advance k th te s Hfwd) as [Hnext Hlast].
      pose proof (fwd_bound _ _ _ Hfwd) as Hbound.
      destruct (decide (S k = nItems)) as [Heq | Hneq].
      * rewrite done_run; [by apply Hlast | exact Hes | by apply Hlast].
      * apply (IH (S k)); [exact Hes | | apply Hnext; lia].
        unfold countAdvances in *. simpl in Hcount. lia.
    + apply (IH k); [exact Hes | exact Hcount | by apply forward_tick].
    + apply (IH k); [exact Hes | exact Hcount | by apply forward_update].
Qed.

End Forward.

(** A briefing of [nItems] items walked forward from the setup screen, with
    any sampling ticks and snapshot updates in between: once the advance
    button has been clicked [nItems] times the session shows the results,
    which hold exactly one entry per item, for items [0 .. nItems-1] in
    order, and the flagged items are exactly the entries that fail the
    threshold. *)
Theorem forward_full_pass (nItems : nat) (t : Z) (es : list Event) :
  (0 < nItems)%nat ->
  forallb forwardEvent es = true ->
  (nItems <= countAdvances es)%nat ->
  let s := run nItems (StartReview t :: es) initialReview in
  phase s = results
  /\ map itemIndex (itemResults s) = seq 0 nItems
  /\ length (itemResults s) = nItems
  /\ missedItems s = List.filter failsThreshold (itemResults s).
Proof.
  intros Hpos Hes Hcount s.
  assert (Hdone : FullPassDone nItems s).
  { apply (forward_run nItems es 0); [exact Hes | lia | by apply forward_start]. }
  destruct Hdone as [Hphase Hres Hmissed _ _].
  repeat split; try done.
  rewrite <- (length_map itemIndex), Hres. apply length_seq.
Qed.

(** ** A sub re-review *)

Lemma finishReview_full_flagged (finalResults : list ItemResult) (s : Review) :
  isReReview s = false ->
  itemResults (finishReview finalResults s) = finalResults
  /\ missedItems (finishReview finalResults s) =
       List.filter failsThreshold (itemResults (finishReview finalResults s)).
Proof. intros Hfull. unfold finishReview. simpl. rewrite Hfull. done. Qed.

(** *** The merge loop *)

(** The loop body, read off the list: the first entry with the result's
    index is overwritten, and the result is pushed when there is none. *)
Lemma mergeOne_nil (r : ItemResult) : mergeOne [] r = [r].
Proof. reflexivity. Qed.

Lemma mergeOne_cons (x r : ItemResult) (u : list ItemResult) :
  mergeOne (x :: u) r =
    if (itemIndex x =? itemIndex r)%nat then r :: u else x :: mergeOne u r.
Proof.
  unfold mergeOne. simpl.
  destruct (itemIndex x =? itemIndex r)%nat; [reflexivity |].
  destruct (findIndex (itemIndex r) u); reflexivity.
Qed.

Lemma find_mergeOne_other (i : nat) (u : list ItemResult) (r : ItemResult) :
  itemIndex r <> i ->
  List.find (fun x => (itemIndex x =? i)%nat) (mergeOne u r) =
  List.find (fun x => (itemIndex x =? i)%nat) u.
Proof.
  intros Hne. apply Nat.eqb_neq in Hne.
  induction u as [| x u IH].
  - rewrite mergeOne_nil. simpl. by rewrite Hne.
  - rewrite mergeOne_cons.
    destruct (itemIndex x =? itemIndex r)%nat eqn:Hx; simpl.
    + apply Nat.eqb_eq in Hx. rewrite Hx, Hne. reflexivity.
    + destruct (itemIndex x =? i)%nat; [reflexivity | exact IH].
Qed.

Lemma mergeOne_first (u : list ItemResult) (r : ItemResult) :
  List.find (fun x => (itemIndex x =? itemIndex r)%nat) u = Some r ->
  mergeOne u r = u.
Proof.
  induction u as [| x u IH]; [discriminate |].
  rewrite mergeOne_cons. simpl.
  destruct (itemIndex x =? itemIndex r)%nat.
  - intros [= ->]. reflexivity.
  - intros Hfind. by rewrite IH.
Qed.

Lemma mergeOne_indices (u : list ItemResult) (r : ItemResult) :
  In (itemIndex r) (map itemIndex u) ->
  map itemIndex (mergeOne u r) = map itemIndex u.
Proof.
  induction u as [| x u IH]; [intros [] |].
  rewrite mergeOne_cons.
  destruct (itemIndex x =? itemIndex r)%nat eqn:Hx; simpl.
  - apply Nat.eqb_eq in Hx. by rewrite Hx.
  - apply Nat.eqb_neq in Hx. intros [Heq | Hin]; [done |].
    by rewrite IH.
Qed.

(** Merging results whose indices are all present overwrites in place: the
    sequence of indices is what it was. *)
Lemma mergeResults_indices (fin u : list ItemResult) :
  Forall (fun r => In (itemIndex r) (map itemIndex u)) fin ->
  map itemIndex (mergeResults u fin) = map itemIndex u.
Proof.
  unfold mergeResults. revert u.
  induction fin as [| r fin IH]; intros u Hall; [reflexivity |].
  apply Forall_cons in Hall as [Hr Hall]. simpl.
  rewrite IH; [by apply mergeOne_indices |].
  by rewrite mergeOne_indices.
Qed.

(** The entry found for index [i] survives a merge of results that, where
    they carry index [i], are that very entry. *)
Lemma find_mergeResults (i : nat) (fin u : list ItemResult) :
  (forall r, In r fin -> itemIndex r = i ->
             List.find (fun x => (itemIndex x =? i)%nat) u = Some r) ->
  List.find (fun x => (itemIndex x =? i)%nat) (mergeResults u fin) =
  List.find (fun x => (itemIndex x =? i)%nat) u.
Proof.
  unfold mergeResults. revert u.
  induction fin as [| r fin IH]; intros u Hsame; [reflexivity |].
  simpl. destruct (decide (itemIndex r = i)) as [Heq | Hne].
  - rewrite mergeOne_first.
    + apply IH. intros r' Hr'. apply Hsame. by right.
    + rewrite Heq. apply Hsame; [by left | exact Heq].
  - rewrite IH; [by apply find_mergeOne_other |].
    intros r' Hr' Hi. rewrite find_mergeOne_other by done.
    apply Hsame; [by right | exact Hi].
Qed.

Lemma find_unique (F E : list ItemResult) (r : ItemResult) :
  List.NoDup (map itemIndex F) ->
  In r F ->
  List.find (fun x => (itemIndex x =? itemIndex r)%nat) (F ++ E) = Some r.
Proof.
  induction F as [| x F IH]; [intros _ [] |].
  simpl. intros Hnodup Hin. apply List.NoDup_cons_iff in Hnodup as [Hx Hnodup].
  destruct Hin as [-> | Hin].
  - by rewrite Nat.eqb_refl.
  - destruct (itemIndex x =? itemIndex r)%nat eqn:Heq; [| by apply IH].
    apply Nat.eqb_eq in Heq. exfalso. apply Hx. rewrite Heq.
    by apply in_map.
Qed.

Lemma find_app_absent (i : nat) (F E : list ItemResult) :
  ~ In i (map itemIndex E) ->
  List.find (fun x => (itemIndex x =? i)%nat) (F ++ E) =
  List.find (fun x => (itemIndex x =? i)%nat) F.
Proof.
  intros Hout. induction F as [| x F IH]; simpl.
  - destruct (List.find _ E) as [r |] eqn:Hfind; [| reflexivity].
    apply List.find_some in Hfind as [Hin Hi]. apply Nat.eqb_eq in Hi.
    exfalso. apply Hout. rewrite <- Hi. by apply in_map.
  - destruct (itemIndex x =? i)%nat; [reflexivity | exact IH].
Qed.

(** Merging the list [F ++ E] into itself, as the end of a sub re-review
    does: an index that no entry of [E] carries keeps the entry found for
    it, when [F] holds one entry per index. *)
Lemma merge_self_frame (i : nat) (F E : list ItemResult) :
  List.NoDup (map itemIndex F) ->
  ~ In i (map itemIndex E) ->
  List.find (fun x => (itemIndex x =? i)%nat) (mergeResults (F ++ E) (F ++ E)) =
  List.find (fun x => (itemIndex x =? i)%nat) F.
Proof.
  intros Hnodup Hout.
  rewrite find_mergeResults; [by apply find_app_absent |].
  intros r Hin Hi. subst i.
  apply in_app_iff in Hin as [Hin | Hin]; [by apply find_unique |].
  exfalso. apply Hout. by apply in_map.
Qed.

Lemma merge_self_indices (L : list ItemResult) :
  map itemIndex (mergeResults L L) = map itemIndex L.
Proof.
  apply mergeResults_indices, List.Forall_forall.
  intros r Hr. by apply in_map.
Qed.

(** With one entry per index, an index has a flagged entry exactly when
    the entry found for it fails the threshold. *)
Lemma flagged_iff_failing (i : nat) (L : list ItemResult) :
  List.NoDup (map itemIndex L) ->
  existsb (fun m => (itemIndex m =? i)%nat) (List.filter failsThreshold L) = true
  <-> exists r, List.find (fun x => (itemIndex x =? i)%nat) L = Some r
                /\ failsThreshold r = true.
Proof.
  intros Hnodup. split.
  - intros Hex. apply existsb_exists in Hex as (m & Hm & Hi).
    apply List.filter_In in Hm as [Hin Hfails]. apply Nat.eqb_eq in Hi.
    exists m. split; [| exact Hfails].
    rewrite <- Hi, <- (app_nil_r L). by apply find_unique.
  - intros (r & Hfind & Hfails).
    apply List.find_some in Hfind as [Hin Hi].
    apply existsb_exists. exists r. split; [| exact Hi].
    apply List.filter_In. by split.
Qed.

(** After a full pass walked forward, an item is flagged exactly when its
    result has engagement below 0.4 or focus below 0.35. *)
Theorem forward_full_pass_flagged (nItems : nat) (t : Z) (es : list Event) :
  (0 < nItems)%nat ->
  forallb forwardEvent es = true ->
  (nItems <= countAdvances es)%nat ->
  let s := run nItems (StartReview t :: es) initialReview in
  forall i,
    isMissed i s = true
    <-> exists r, resultOf i s = Some r /\ failsThreshold r = true.
Proof.
  intros Hpos Hes Hcount s i.
  destruct (forward_full_pass nItems t es Hpos Hes Hcount)
    as (_ & Hidx & _ & Hmissed).
  fold s in Hidx, Hmissed. unfold isMissed, resultOf. rewrite Hmissed.
  apply flagged_iff_failing. rewrite Hidx. apply List.seq_NoDup.
Qed.

(** *** The sub-pass *)

Lemma sessionInit_fields (nItems : nat) (t : Z) (s : Review) :
  phase (sessionInit nItems t s) = phase s
  /\ isReReview (sessionInit nItems t s) = isReReview s
  /\ reviewQueue (sessionInit nItems t s) = reviewQueue s
  /\ itemResults (sessionInit nItems t s) = itemResults s
  /\ itemResultsRef (sessionInit nItems t s) = itemResultsRef s
  /\ currentIndex (sessionInit nItems t s) = currentIndex s.
Proof.
  unfold sessionInit. destruct (itemShown nItems s); [| done].
  destruct (activeQueue nItems s !! 0%nat); done.
Qed.

Lemma sessionInit_open (nItems : nat) (t : Z) (s : Review) (i : nat) :
  is_Some (itemMetrics (attention s) !! i) ->
  is_Some (itemMetrics (attention (sessionInit nItems t s)) !! i).
Proof.
  intros Hopen. unfold sessionInit. destruct (itemShown nItems s); [| done].
  destruct (activeQueue nItems s !! 0%nat) as [j |]; [| done].
  simpl. apply lookup_insert_is_Some.
  destruct (decide (j = i)); [by left | by right].
Qed.

Lemma render_open (nItems : nat) (t : Z) (s : Review) (i : nat) :
  phase s = reviewing ->
  activeItemIndex nItems s = Some i ->
  is_Some (itemMetrics (attention (render nItems t s)) !! i).
Proof.
  intros Hphase Hactive. unfold render. rewrite Hphase, Hactive. simpl.
  rewrite lookup_insert_eq. by eexists.
Qed.

Section SubReview.

Variable nItems : nat.
Variable s0 : Review.

Lemma sub_start (t : Z) :
  phase s0 = results ->
  missedItems s0 <> [] ->
  SubReviewOf nItems s0 (step nItems (StartReReview t) s0).
Proof.
  intros Hphase Hne. unfold step. rewrite Hphase.
  destruct (missedItems s0) as [| m ms] eqn:Hm; [done |].
  set (s1 := render nItems t (startReReview s0)).
  destruct (sessionInit_fields nItems t s1) as (Hp & Hf & Hq & Hr & Href & Hi).
  constructor.
  - by rewrite Hp.
  - by rewrite Hf.
  - rewrite Hq. reflexivity.
  - exists []. rewrite Hr, app_nil_r. by split.
  - by rewrite Href, Hr.
  - intros i Hactive. apply sessionInit_open.
    apply render_open; [reflexivity |].
    unfold activeItemIndex, activeQueue in *. by rewrite Hq, Hi in Hactive.
Qed.

Lemma sub_advance (th te : Z) (s : Review) :
  SubReviewOf nItems s0 s ->
  SubReviewOf nItems s0 (step nItems (AdvanceItem th te) s)
  \/ SubReviewDone s0 (step nItems (AdvanceItem th te) s).
Proof.
  intros Hsub. unfold step.
  destruct (isReviewing s && itemShown nItems s)%bool eqn:Hguard; [| by left].
  apply andb_prop in Hguard as [_ Hshown].
  destruct (itemShown_active nItems s Hshown) as (i & Ha & _).
  destruct Hsub as [Hphase Hflag Hqueue (extra & Hextra & Hin) Href Hopen].
  destruct (stopTrackingItem_open i th (attention s) (Hopen i Ha))
    as (r & Hstop & Hr).
  assert (Hri : In (itemIndex r) (subQueue s0)).
  { rewrite Hr. unfold activeItemIndex, activeQueue in Ha. rewrite Hqueue in Ha.
    apply list_elem_of_In. by eapply list_elem_of_lookup_2. }
  assert (Hall : Forall (fun x => In (itemIndex x) (subQueue s0)) (extra ++ [r])).
  { apply Forall_app. split; [exact Hin | by constructor]. }
  unfold advanceItem, stopActive. rewrite Ha, Hstop.
  destruct (Z.of_nat (currentIndex s) <?
            Z.of_nat (length (activeQueue nItems s)) - 1).
  - left. constructor; try done.
    + exists (extra ++ [r]). split; [| exact Hall].
      simpl. by rewrite Hextra, app_assoc.
    + intros j Hj. apply render_open; [exact Hphase | exact Hj].
  - right. constructor; [reflexivity |].
    exists (extra ++ [r]). split; [by destruct extra |]. split; [exact Hall |].
    simpl. rewrite Hflag, Href, Hextra, <- app_assoc. by split.
Qed.

Lemma sub_back (th te : Z) (s : Review) :
  SubReviewOf nItems s0 s ->
  SubReviewOf nItems s0 (step nItems (GoBack th te) s).
Proof.
  intros Hsub. unfold step.
  destruct (isReviewing s && itemShown nItems s
            && negb (currentIndex s =? 0)%nat)%bool; [| exact Hsub].
  destruct Hsub as [Hphase Hflag Hqueue Hextra Href Hopen].
  unfold goBack. destruct (0 <? currentIndex s)%nat.
  - destruct (stopActive nItems th s) as [result att].
    constructor; try done.
    intros j Hj. apply render_open; [exact Hphase | exact Hj].
  - constructor; try done.
    intros j Hj. apply render_open; [exact Hphase | exact Hj].
Qed.

Lemma sub_tick (s : Review) :
  SubReviewOf nItems s0 s ->
  SubReviewOf nItems s0 (step nItems RecordTick s).
Proof.
  intros Hsub. pose proof Hsub as [Hphase Hflag Hqueue Hextra Href Hopen].
  unfold step. rewrite Hphase.
  destruct (activeItemIndex nItems s) as [i |] eqn:Ha; [| exact Hsub].
  constructor; simpl; try done.
  intros j Hj.
  assert (j = i) as -> by (unfold activeItemIndex, activeQueue in *; simpl in Hj; congruence).
  unfold recordReading.
  destruct (itemMetrics (attention s) !! i) as [data |] eqn:Hdata; simpl.
  - rewrite lookup_insert_eq. by eexists.
  - destruct (Hopen i eq_refl) as [data Hsome]. congruence.
Qed.

Lemma sub_update (m : Live.t) (t : Z) (s : Review) :
  SubReviewOf nItems s0 s ->
  SubReviewOf nItems s0 (step nItems (LiveUpdate m t) s).
Proof.
  intros Hsub. pose proof Hsub as [Hphase Hflag Hqueue Hextra Href Hopen].
  unfold step. destruct (isActive (attention s)); [| exact Hsub].
  constructor; try done.
  intros j Hj. apply render_open; [exact Hphase | exact Hj].
Qed.

Lemma subdone_step (e : Event) (s : Review) :
  navigationEvent e = true ->
  SubReviewDone s0 s -> SubReviewDone s0 (step nItems e s).
Proof.
  intros He Hdone. pose proof Hdone as [Hphase Hout].
  destruct e; try discriminate; unfold step, isReviewing;
    rewrite ?Hphase; simpl; try done.
  destruct (isActive (attention s)); [| done].
  by constructor.
Qed.

Lemma sub_run (es : list Event) (s : Review) :
  forallb navigationEvent es = true ->
  SubReviewOf nItems s0 s \/ SubReviewDone s0 s ->
  SubReviewOf nItems s0 (run nItems es s) \/ SubReviewDone s0 (run nItems es s).
Proof.
  revert s. induction es as [| e es IH]; intros s Hes Hinv; [exact Hinv |].
  simpl in Hes. apply andb_prop in Hes as [He Hes].
  change (run nItems (e :: es) s) with (run nItems es (step nItems e s)).
  apply IH; [exact Hes |].
  destruct Hinv as [Hsub | Hdone]; [| right; by apply subdone_step].
  destruct e as [| th te | th te | | | | m t]; try discriminate.
  - by apply sub_advance.
  - left. by apply sub_back.
  - left. by apply sub_tick.
  - left. by apply sub_update.
Qed.

(** A sub re-review that reaches the results again has ended the way
    [SubReviewDone] describes. *)
Lemma sub_review_done (t : Z) (es : list Event) :
  phase s0 = results ->
  missedItems s0 <> [] ->
  forallb navigationEvent es = true ->
  phase (run nItems es (step nItems (StartReReview t) s0)) = results ->
  SubReviewDone s0 (run nItems es (step nItems (StartReReview t) s0)).
Proof.
  intros Hphase Hne Hes Hend.
  destruct (sub_run es (step nItems (StartReReview t) s0) Hes) as [Hsub | Hdone].
  - left. by apply sub_start.
  - destruct Hsub as [Hrev _ _ _ _ _]. congruence.
  - exact Hdone.
Qed.

End SubReview.

(** From results whose flagged items are the entries that fail the
    threshold (the state a full pass ends in), a sub re-review, however it
    is navigated, ends with every formerly flagged item flagged again:
    re-reviewing an item does not clear its flag. *)
Theorem reReview_flags_persist
    (nItems : nat) (t : Z) (es : list Event) (s0 : Review) :
  phase s0 = results ->
  missedItems s0 <> [] ->
  missedItems s0 = List.filter failsThreshold (itemResults s0) ->
  forallb navigationEvent es = true ->
  let s := run nItems es (step nItems (StartReReview t) s0) in
  phase s = results ->
  forall i, isMissed i s0 = true -> isMissed i s = true.
Proof.
  intros Hphase Hne Hmissed Hes s Hend i Hi.
  destruct (sub_review_done nItems s0 t es Hphase Hne Hes Hend)
    as [_ (extra & _ & _ & _ & Hflagged)].
  fold s in Hflagged. unfold isMissed in *.
  apply existsb_exists in Hi as (m & Hm & Hidx).
  apply existsb_exists. exists m. split; [| exact Hidx].
  rewrite Hflagged. rewrite Hmissed in Hm.
  apply List.filter_In in Hm as [Hin Hfails].
  apply List.filter_In. split; [| exact Hfails].
  apply in_app_iff. by left.
Qed.

(** The frame of a sub re-review that follows a pass with one result per
    item: an item outside the sub-review queue has the same result after
    the sub-pass as before it. *)
Theorem reReview_frame
    (nItems : nat) (t : Z) (es : list Event) (s0 : Review) :
  phase s0 = results ->
  missedItems s0 <> [] ->
  List.NoDup (map itemIndex (itemResults s0)) ->
  forallb navigationEvent es = true ->
  let s := run nItems es (step nItems (StartReReview t) s0) in
  phase s = results ->
  forall i, ~ In i (subQueue s0) -> resultOf i s = resultOf i s0.
Proof.
  intros Hphase Hne Hnodup Hes s Hend i Hout.
  destruct (sub_review_done nItems s0 t es Hphase Hne Hes Hend)
    as [_ (extra & _ & Hidx & Hmerged & _)].
  fold s in Hmerged. unfold resultOf. rewrite Hmerged.
  apply merge_self_frame; [exact Hnodup |].
  intros Hin. apply in_map_iff in Hin as (r & Hr & Hrin).
  apply Hout. rewrite <- Hr.
  rewrite List.Forall_forall in Hidx. by apply Hidx.
Qed.

(** The growth of the results over a sub re-review: the indices of the
    entries afterwards are those before, followed by at least one more
    index, all of them from the sub-review queue. *)
Theorem reReview_grows
    (nItems : nat) (t : Z) (es : list Event) (s0 : Review) :
  phase s0 = results ->
  missedItems s0 <> [] ->
  forallb navigationEvent es = true ->
  let s := run nItems es (step nItems (StartReReview t) s0) in
  phase s = results ->
  exists added,
    added <> []
    /\ Forall (fun i => In i (subQueue s0)) added
    /\ map itemIndex (itemResults s) = map itemIndex (itemResults s0) ++ added.
Proof.
  intros Hphase Hne Hes s Hend.
  destruct (sub_review_done nItems s0 t es Hphase Hne Hes Hend)
    as [_ (extra & Hextra & Hidx & Hmerged & _)].
  fold s in Hmerged. exists (map itemIndex extra).
  split; [by destruct extra |]. split.
  - apply List.Forall_forall. intros i Hi.
    apply in_map_iff in Hi as (r & <- & Hr).
    rewrite List.Forall_forall in Hidx. by apply Hidx.
  - by rewrite Hmerged, merge_self_indices, map_app.
Qed.

(** The general statements at the sample passes. *)
Example forward_full_pass_sample :
  map itemIndex
    (itemResults (run 2 (StartReview 0 :: fullPassEvents) initialReview)) =
  seq 0 2.
Proof.
  destruct (forward_full_pass 2 0 fullPassEvents) as (_ & Hidx & _);
    [lia | vm_compute; reflexivity | vm_compute; lia | exact Hidx].
Qed.

Lemma reReview_flags_persist_witness :
  isMissed 1
    (run 2 subPassEvents
       (step 2 (StartReReview 500) (run 2 fullPassTrace initialReview))) = true.
Proof.
  apply reReview_flags_persist;
    first [vm_compute; reflexivity | vm_compute; discriminate].
Defined.

Lemma reReview_frame_witness :
  resultOf 0
    (run 2 subPassEvents
       (step 2 (StartReReview 500) (run 2 fullPassTrace initialReview))) =
  resultOf 0 (run 2 fullPassTrace initialReview).
Proof.
  apply reReview_frame;
    try first [vm_compute; reflexivity | vm_compute; discriminate].
  - vm_compute. repeat constructor; simpl; intuition lia.
  - vm_compute. intuition lia.
Defined.

Lemma reReview_grows_witness :
  exists added,
    added <> []
    /\ Forall (fun i => In i (subQueue (run 2 fullPassTrace initialReview))) added
    /\ map itemIndex
         (itemResults
            (run 2 subPassEvents
               (step 2 (StartReReview 500) (run 2 fullPassTrace initialReview))))
       = map itemIndex (itemResults (run 2 fullPassTrace initialReview)) ++ added.
Proof.
  apply reReview_grows;
    first [vm_compute; reflexivity | vm_compute; discriminate].
Defined.

(** * Further properties *)

(** ** Comparisons of binary64 numbers *)

(** Swapping the operands of a comparison reverses its outcome. *)
Lemma SFcompare_swap (x y : spec_float) :
  SFcompare y x = option_map CompOpp (SFcompare x y).
Proof.
  destruct x as [sx | sx | | sx mx ex], y as [sy | sy | | sy my ey];
    try reflexivity;
    try (destruct sx; reflexivity);
    try (destruct sy; reflexivity);
    try (destruct sx, sy; reflexivity).
  simpl. destruct sx, sy; try reflexivity; simpl;
    rewrite (Z.compare_antisym ex ey);
    destruct (ex ?= ey)%Z; simpl; try reflexivity.
  - do 2 f_equal. symmetry. apply (Pos.compare_cont_antisym mx my Eq).
  - f_equal. symmetry. apply (Pos.compare_cont_antisym mx my Eq).
Qed.

Lemma not_nan_spec (a : float) :
  PrimFloat.is_nan a = false -> Prim2SF a <> S754_nan.
Proof.
  unfold PrimFloat.is_nan. rewrite FloatAxioms.eqb_spec. intros Hnan Hspec.
  rewrite Hspec in Hnan. discriminate.
Qed.

Lemma ltb_leb (a b : float) :
  PrimFloat.ltb a b = true -> PrimFloat.leb a b = true.
Proof.
  rewrite ltb_spec, leb_spec. unfold SFltb, SFleb.
  destruct (SFcompare (Prim2SF a) (Prim2SF b)) as [[] |]; done.
Qed.

(** Only NaN is unordered. *)
Lemma SFcompare_ordered (x y : spec_float) :
  x <> S754_nan -> y <> S754_nan -> exists c, SFcompare x y = Some c.
Proof.
  intros Hx Hy.
  destruct x as [sx | sx | | sx mx ex], y as [sy | sy | | sy my ey];
    try done; simpl; eauto.
Qed.

(** Between two numbers neither of which is NaN, [a < b] failing means
    [b <= a]. *)
Lemma not_ltb_leb (a b : float) :
  PrimFloat.is_nan a = false ->
  PrimFloat.is_nan b = false ->
  PrimFloat.ltb a b = false -> PrimFloat.leb b a = true.
Proof.
  intros Ha Hb. apply not_nan_spec in Ha, Hb.
  rewrite ltb_spec, leb_spec. unfold SFltb, SFleb.
  rewrite (SFcompare_swap (Prim2SF a) (Prim2SF b)).
  destruct (SFcompare_ordered _ _ Ha Hb) as [c ->].
  destruct c; done.
Qed.

(** The two ways a clamp can come out. *)
Lemma clamp01_nan (v : float) :
  PrimFloat.is_nan v = true -> clamp01 v = PrimFloat.nan.
Proof. intros Hnan. unfold clamp01, Num.min2. rewrite Hnan. reflexivity. Qed.

Lemma clamp01_inUnit (v : float) :
  PrimFloat.is_nan v = false -> inUnit (clamp01 v) = true.
Proof.
  intros Hnan. unfold clamp01.
  assert (Hmin : Num.min2 1%float v = 1%float
                 \/ Num.min2 1%float v = v /\ PrimFloat.leb v 1%float = true).
  { unfold Num.min2. rewrite Hnan. simpl.
    destruct (PrimFloat.ltb 1%float v) eqn:H1; [by left |].
    right. split.
    - destruct (PrimFloat.ltb v 1%float); reflexivity.
    - by apply not_ltb_leb. }
  destruct Hmin as [-> | [-> Hle]]; [reflexivity |].
  unfold Num.max2. rewrite Hnan. simpl.
  destruct (PrimFloat.ltb 0%float v) eqn:H0.
  - unfold inUnit. by rewrite (ltb_leb _ _ H0), Hle.
  - destruct (PrimFloat.ltb v 0%float); reflexivity.
Qed.

Lemma clamp01_cases (v : float) :
  inUnit (clamp01 v) = true \/ clamp01 v = PrimFloat.nan.
Proof.
  destruct (PrimFloat.is_nan v) eqn:Hnan;
    [right; by apply clamp01_nan | left; by apply clamp01_inUnit].
Qed.

(** ** The estimator, further *)

(** The clamp of the estimator and of the demo synthesizer,
    [Math.max(0, Math.min(1, v))]: NaN goes to NaN, and every other number,
    the infinities included, lands in the unit interval. *)
Theorem clamp_range (v : float) :
  (PrimFloat.is_nan v = true ->
   Num.Math_max [0%float; Num.Math_min [1%float; v]] = PrimFloat.nan)
  /\ (PrimFloat.is_nan v = false ->
      inUnit (Num.Math_max [0%float; Num.Math_min [1%float; v]]) = true).
Proof.
  rewrite clamp01_code.
  split; [apply clamp01_nan | apply clamp01_inUnit].
Qed.

Lemma clamp_range_witness :
  inUnit (Num.Math_max [0%float; Num.Math_min [1%float; PrimFloat.infinity]]) = true
  /\ Num.Math_max [0%float; Num.Math_min [1%float; PrimFloat.nan]] = PrimFloat.nan.
Proof.
  split.
  - apply (clamp_range PrimFloat.infinity). reflexivity.
  - apply (clamp_range PrimFloat.nan). reflexivity.
Defined.

(** Whatever the estimator returns, its engagement and its focus are each
    within the unit interval, or NaN when the weighted sum they clamp is
    NaN. *)
Theorem computeEngagement_range (result : FaceLandmarkerResult) (m : Metrics.t) :
  computeEngagement result = Returned m ->
  (inUnit (Metrics.engagement m) = true \/ Metrics.engagement m = PrimFloat.nan)
  /\ (inUnit (Metrics.focus m) = true \/ Metrics.focus m = PrimFloat.nan).
Proof.
  unfold computeEngagement.
  destruct (faceLandmarks result) as [[| landmarks others] |];
    try (intros [= <-]; split; left; reflexivity).
  destruct (landmarks !! 1%nat) as [noseTip |]; [| discriminate].
  destruct (landmarks !! 152%nat) as [chin |]; [| discriminate].
  destruct (landmarks !! 10%nat) as [forehead |]; [| discriminate].
  cbv zeta. rewrite !clamp01_code. intros [= <-]. simpl.
  split; apply clamp01_cases.
Qed.

Lemma computeEngagement_range_witness :
  inUnit 0.83125%float = true \/ 0.83125%float = PrimFloat.nan.
Proof.
  apply (computeEngagement_range sampleFace
           (Metrics.mk 0.83125%float 0.7%float true)).
  vm_compute. reflexivity.
Defined.

(** The estimator throws exactly on a first face whose landmark array stops
    before index 152: it reads the landmarks 1, 10 and 152 and nothing
    beyond. *)
Theorem computeEngagement_throws_iff (result : FaceLandmarkerResult) :
  computeEngagement result = TypeError
  <-> exists landmarks others,
        faceLandmarks result = Some (landmarks :: others)
        /\ (length landmarks <= 152)%nat.
Proof.
  unfold computeEngagement. split.
  - destruct (faceLandmarks result) as [[| landmarks others] |]; try discriminate.
    intros Hthrow. exists landmarks, others. split; [reflexivity |].
    destruct (landmarks !! 1%nat) eqn:H1;
      [| apply lookup_ge_None in H1; lia].
    destruct (landmarks !! 152%nat) eqn:H152;
      [| by apply lookup_ge_None in H152].
    destruct (landmarks !! 10%nat) eqn:H10;
      [discriminate | apply lookup_ge_None in H10; lia].
  - intros (landmarks & others & -> & Hshort).
    apply lookup_ge_None in Hshort. rewrite Hshort.
    destruct (landmarks !! 1%nat); reflexivity.
Qed.

(** A blendshape score is read from the first category carrying the name:
    categories before it with other names and everything after it, later
    categories of the same name included, do not matter; with no category
    of that name the score reads as 0. *)
Theorem getBlendshapeValue_first_match
    (name : string) (before after : list Category) (c : Category)
    (others : list Classifications) :
  Forall (fun b => categoryName b <> name) before ->
  (categoryName c = name ->
   getBlendshapeValue
     (Some ({| categories := Some (before ++ c :: after) |} :: others)) name
   = score c)
  /\ getBlendshapeValue
       (Some ({| categories := Some before |} :: others)) name = 0%float.
Proof.
  intros Hbefore. unfold getBlendshapeValue. simpl.
  induction before as [| b before IH]; simpl.
  - split; [| reflexivity]. intros Hname.
    apply String.eqb_eq in Hname. by rewrite Hname.
  - apply Forall_cons in Hbefore as [Hb Hbefore].
    apply String.eqb_neq in Hb. rewrite Hb. by apply IH.
Qed.

Lemma getBlendshapeValue_first_match_witness :
  getBlendshapeValue
    (Some [ {| categories := Some
                 ([ {| categoryName := "jawOpen"; score := 0.5 |} ] ++
                  {| categoryName := "eyeBlinkLeft"; score := 0.25 |} ::
                  [ {| categoryName := "eyeBlinkLeft"; score := 1 |} ]) |} ])
    "eyeBlinkLeft" = 0.25%float.
Proof.
  apply (getBlendshapeValue_first_match "eyeBlinkLeft"
           [ {| categoryName := "jawOpen"; score := 0.5 |} ]
           [ {| categoryName := "eyeBlinkLeft"; score := 1 |} ]
           {| categoryName := "eyeBlinkLeft"; score := 0.25 |} []).
  - repeat constructor. simpl. discriminate.
  - reflexivity.
Defined.

(** ** The tracker, further *)

Lemma sampleRounds_record (i : nat) (t0 : Z) (att : Attention) (ms : list Live.t) :
  itemMetrics (fold_left (sampleRound i) ms (startTrackingItem i t0 att)) !! i
  = Some {| readings := ms; startTime := t0 |}.
Proof.
  assert (Hgen : forall a rs,
    itemMetrics a !! i = Some {| readings := rs; startTime := t0 |} ->
    itemMetrics (fold_left (sampleRound i) ms a) !! i
    = Some {| readings := rs ++ ms; startTime := t0 |}).
  { induction ms as [| m ms IH]; intros a rs Ha; simpl.
    - by rewrite app_nil_r.
    - rewrite (IH (sampleRound i a m) (rs ++ [m])).
      + by rewrite <- app_assoc.
      + unfold sampleRound, recordReading. simpl. rewrite Ha. simpl.
        by rewrite lookup_insert_eq. }
  apply (Hgen _ []). unfold startTrackingItem. simpl. apply lookup_insert_eq.
Qed.

(** Start, sample, stop: after tracking of an item is started and any
    number of snapshots are recorded for it, stopping it returns the means
    of exactly those snapshots, in the order recorded, and the time since
    the start; with no snapshot recorded it returns the snapshot current at
    the stop. *)
Theorem start_sample_stop
    (i : nat) (t0 t1 : Z) (att : Attention) (ms : list Live.t) :
  let att' := fold_left (sampleRound i) ms (startTrackingItem i t0 att) in
  fst (stopTrackingItem i t1 att') =
    Some {| itemIndex := i;
            avgEngagement :=
              match ms with
              | [] => Live.engagement (liveMetrics att)
              | _ :: _ => arithmeticMean (map Live.engagement ms)
              end;
            avgFocus :=
              match ms with
              | [] => Live.focus (liveMetrics att)
              | _ :: _ => arithmeticMean (map Live.focus ms)
              end;
            timeSpentMs := t1 - t0 |}.
Proof.
  intros att'. unfold stopTrackingItem.
  subst att'. rewrite sampleRounds_record. simpl.
  destruct ms as [| m ms]; [reflexivity |].
  unfold arithmeticMean.
  rewrite sumEngagement_floatSum, sumFocus_floatSum, !length_map.
  reflexivity.
Qed.

(** Items are tracked apart: starting or sampling item [i] changes neither
    the record of another item [j] nor what stopping [j] returns, as long
    as the snapshot is the same. *)
Theorem tracking_isolated (i j : nat) (t now : Z) (att : Attention) :
  i <> j ->
  itemMetrics (startTrackingItem i t att) !! j = itemMetrics att !! j
  /\ itemMetrics (recordReading i att) !! j = itemMetrics att !! j
  /\ fst (stopTrackingItem j now (startTrackingItem i t att))
     = fst (stopTrackingItem j now att)
  /\ fst (stopTrackingItem j now (recordReading i att))
     = fst (stopTrackingItem j now att).
Proof.
  intros Hne.
  assert (Hstart : itemMetrics (startTrackingItem i t att) !! j
                   = itemMetrics att !! j).
  { unfold startTrackingItem. simpl. by apply lookup_insert_ne. }
  assert (Hrecord : itemMetrics (recordReading i att) !! j
                    = itemMetrics att !! j
                    /\ liveMetrics (recordReading i att) = liveMetrics att).
  { unfold recordReading. destruct (itemMetrics att !! i); [| done].
    simpl. split; [by apply lookup_insert_ne | reflexivity]. }
  destruct Hrecord as [Hrecord Hlive].
  repeat split; try done.
  - unfold stopTrackingItem. rewrite Hstart.
    destruct (itemMetrics att !! j) as [data |]; [| reflexivity].
    by destruct (readings data).
  - unfold stopTrackingItem. rewrite Hrecord, Hlive.
    destruct (itemMetrics att !! j) as [data |]; [| reflexivity].
    by destruct (readings data).
Qed.

Lemma tracking_isolated_witness :
  fst (stopTrackingItem 3 1500 (startTrackingItem 4 1200 sampleAttention))
  = fst (stopTrackingItem 3 1500 sampleAttention).
Proof.
  apply (tracking_isolated 4 3 1200 1500 sampleAttention). lia.
Defined.

(** Sampling an item that was never started does nothing, and stopping
    does not end a record: after a stop the record is still in the tracker,
    a further sample is appended to it and a second stop returns a result
    again. *)
Theorem stop_keeps_record (i : nat) (now now' : Z) (att : Attention) :
  (itemMetrics att !! i = None -> recordReading i att = att)
  /\ (forall data,
        itemMetrics att !! i = Some data ->
        let att' := recordReading i (snd (stopTrackingItem i now att)) in
        itemMetrics att' !! i =
          Some {| readings := readings data ++ [liveMetrics att];
                  startTime := startTime data |}
        /\ is_Some (fst (stopTrackingItem i now' att'))).
Proof.
  split.
  - intros Hnone. unfold recordReading. by rewrite Hnone.
  - intros data Hdata att'. subst att'. rewrite stopTrackingItem_state.
    assert (Hrec : itemMetrics (recordReading i att) !! i =
                   Some {| readings := readings data ++ [liveMetrics att];
                           startTime := startTime data |}).
    { unfold recordReading. rewrite Hdata. simpl. apply lookup_insert_eq. }
    split; [exact Hrec |].
    destruct (stopTrackingItem_open i now' (recordReading i att))
      as (r & Hstop & _); [by rewrite Hrec |].
    rewrite Hstop. by eexists.
Qed.

Lemma stop_keeps_record_witness :
  is_Some (fst (stopTrackingItem 3 1600
                  (recordReading 3 (snd (stopTrackingItem 3 1500 sampleAttention))))).
Proof.
  destruct (stop_keeps_record 3 1500 1600 sampleAttention) as [_ Hkept].
  apply (Hkept sampleData). reflexivity.
Defined.

(** ** The merge loop, further *)

Lemma find_mergeOne_same (i : nat) (u : list ItemResult) (r : ItemResult) :
  itemIndex r = i ->
  List.find (fun x => (itemIndex x =? i)%nat) (mergeOne u r) = Some r.
Proof.
  intros <-. induction u as [| x u IH].
  - rewrite mergeOne_nil. simpl. by rewrite Nat.eqb_refl.
  - rewrite mergeOne_cons.
    destruct (itemIndex x =? itemIndex r)%nat eqn:Hx; simpl.
    + by rewrite Nat.eqb_refl.
    + by rewrite Hx.
Qed.

Lemma find_app_first (i : nat) (l1 l2 : list ItemResult) :
  List.find (fun x => (itemIndex x =? i)%nat) (l1 ++ l2)
  = match List.find (fun x => (itemIndex x =? i)%nat) l1 with
    | Some r => Some r
    | None => List.find (fun x => (itemIndex x =? i)%nat) l2
    end.
Proof.
  induction l1 as [| x l1 IH]; [reflexivity |].
  simpl. by destruct (itemIndex x =? i)%nat.
Qed.

(** The merge loop of the re-review branch is a keyed update in which the
    last write wins: after merging, the entry found for an index is the
    last result of [finalResults] with that index, and the entry found
    before when [finalResults] has none. *)
Theorem mergeResults_lookup (i : nat) (prev finalResults : list ItemResult) :
  List.find (fun x => (itemIndex x =? i)%nat) (mergeResults prev finalResults)
  = match lastResultOf i finalResults with
    | Some r => Some r
    | None => List.find (fun x => (itemIndex x =? i)%nat) prev
    end.
Proof.
  unfold mergeResults, lastResultOf. revert prev.
  induction finalResults as [| r fin IH]; intros prev; [reflexivity |].
  simpl. rewrite IH, find_app_first.
  destruct (List.find _ (rev fin)) as [x |]; [reflexivity |].
  simpl. destruct (itemIndex r =? i)%nat eqn:Hr.
  - apply find_mergeOne_same. by apply Nat.eqb_eq.
  - apply find_mergeOne_other. by apply Nat.eqb_neq.
Qed.

Lemma mergeOne_absent (u : list ItemResult) (r : ItemResult) :
  ~ In (itemIndex r) (map itemIndex u) -> mergeOne u r = u ++ [r].
Proof.
  induction u as [| x u IH]; [reflexivity |].
  intros Hout. rewrite mergeOne_cons.
  destruct (itemIndex x =? itemIndex r)%nat eqn:Hx.
  - apply Nat.eqb_eq in Hx. exfalso. apply Hout. by left.
  - rewrite IH; [reflexivity |]. intros Hin. apply Hout. by right.
Qed.

(** Merged into results that hold one entry per index, any list of results
    leaves one entry per index, for exactly the indices of either list;
    entries already present keep their place and nothing is removed. *)
Theorem mergeResults_keyed (prev finalResults : list ItemResult) :
  List.NoDup (map itemIndex prev) ->
  List.NoDup (map itemIndex (mergeResults prev finalResults))
  /\ (forall i, In i (map itemIndex (mergeResults prev finalResults))
                <-> In i (map itemIndex prev) \/ In i (map itemIndex finalResults))
  /\ exists added,
       map itemIndex (mergeResults prev finalResults) = map itemIndex prev ++ added.
Proof.
  unfold mergeResults. revert prev.
  induction finalResults as [| r fin IH]; intros prev Hnodup; simpl.
  - split; [exact Hnodup |]. split; [intros i; tauto |].
    exists []. by rewrite app_nil_r.
  - destruct (ListDec.In_dec Nat.eq_dec (itemIndex r) (map itemIndex prev))
      as [Hin | Hout].
    + pose proof (mergeOne_indices prev r Hin) as Hsame.
      destruct (IH (mergeOne prev r)) as (Hnd & Hmem & added & Hadd);
        [by rewrite Hsame |].
      split; [exact Hnd |]. split.
      * intros i. rewrite Hmem, Hsame. split; [tauto |].
        intros [Hp | [<- | Hf]]; tauto.
      * exists added. by rewrite Hadd, Hsame.
    + pose proof (mergeOne_absent prev r Hout) as Hpush.
      destruct (IH (mergeOne prev r)) as (Hnd & Hmem & added & Hadd).
      { rewrite Hpush, map_app. simpl.
        apply List.NoDup_app_remove_l with (l := []). simpl.
        apply NoDup_ListNoDup. apply NoDup_app. split_and!.
        - by apply NoDup_ListNoDup.
        - intros x Hx Hx'. apply list_elem_of_In in Hx.
          apply list_elem_of_singleton in Hx'. by subst.
        - apply NoDup_singleton. }
      split; [exact Hnd |]. split.
      * intros i. rewrite Hmem, Hpush, map_app, in_app_iff. simpl. tauto.
      * exists (itemIndex r :: added).
        rewrite Hadd, Hpush, map_app. simpl. by rewrite <- app_assoc.
Qed.

Lemma mergeResults_keyed_witness :
  List.NoDup (map itemIndex (mergeResults storedResults newerResults)).
Proof.
  destruct (mergeResults_keyed storedResults newerResults) as (Hunique & _).
  - simpl. repeat constructor; simpl; intuition lia.
  - exact Hunique.
Defined.

Example mergeResults_sample :
  map itemIndex (mergeResults storedResults newerResults) = [0; 1; 2]%nat
  /\ List.find (fun x => (itemIndex x =? 1)%nat)
       (mergeResults storedResults newerResults)
     = Some {| itemIndex := 1; avgEngagement := 1; avgFocus := 1;
               timeSpentMs := 20 |}.
Proof. split; vm_compute; reflexivity. Qed.

(** ** Invariants of the session *)

Section Invariant.

Variable nItems : nat.
Hypothesis some_items : (0 < nItems)%nat.

Lemma isReviewing_phase (s : Review) :
  isReviewing s = true <-> phase s = reviewing.
Proof. unfold isReviewing. destruct (phase s); split; done. Qed.

Lemma shape_active_item (s : Review) :
  Shape nItems s ->
  phase s = reviewing ->
  exists i, activeItemIndex nItems s = Some i
            /\ (i < nItems)%nat /\ itemShown nItems s = true.
Proof.
  intros [_ _ _ _ Hqueue Hpos] Hphase.
  destruct (lookup_lt_is_Some_2 (activeQueue nItems s) (currentIndex s)
              (Hpos Hphase)) as [i Hi].
  assert (Hbound : (i < nItems)%nat).
  { unfold activeQueue in Hi. destruct (reviewQueue s) as [q |].
    - destruct Hqueue as (_ & _ & Hq).
      by apply (Forall_lookup_1 _ _ _ _ Hq Hi).
    - apply lookup_seq in Hi. lia. }
  exists i. split; [exact Hi |]. split; [exact Hbound |].
  unfold itemShown, activeItemIndex. rewrite Hi. by apply Nat.ltb_lt.
Qed.

Lemma initial_coherent : Coherent nItems initialReview.
Proof.
  constructor; [constructor | ..]; simpl; try done.
Qed.

(** The effects of a render establish the parts that concern the mirror
    and the tracker. *)
Lemma render_coherent (t : Z) (s : Review) :
  Shape nItems s ->
  isActive (attention s) = isReviewing s ->
  Coherent nItems (render nItems t s).
Proof.
  intros Hshape Hactive. constructor.
  - destruct Hshape as [H1 H2 H3 H4 H5 H6]. by constructor.
  - reflexivity.
  - intros Hphase i Hi.
    change (phase s = reviewing) in Hphase.
    change (activeItemIndex nItems s = Some i) in Hi.
    unfold render. rewrite Hphase, Hi. simpl.
    rewrite lookup_insert_eq. eexists. split; [reflexivity |]. constructor.
  - revert Hactive. unfold render, isReviewing. simpl.
    destruct (phase s), (activeItemIndex nItems s); done.
Qed.

(** Entering the reviewing phase at position 0: the render and the
    session effect. *)
Lemma enter_coherent (t : Z) (s : Review) :
  Shape nItems s ->
  phase s = reviewing ->
  currentIndex s = 0%nat ->
  Coherent nItems (sessionInit nItems t (render nItems t s)).
Proof.
  intros Hshape Hphase Hzero.
  destruct (shape_active_item s Hshape Hphase) as (i & Hi & Hbound & Hshown).
  assert (Hinit : sessionInit nItems t (render nItems t s) =
                  withAttention
                    (startTrackingItem i t
                       (startSession (attention (render nItems t s))))
                    (render nItems t s)).
  { unfold sessionInit.
    change (itemShown nItems (render nItems t s)) with (itemShown nItems s).
    rewrite Hshown.
    change (activeQueue nItems (render nItems t s)) with (activeQueue nItems s).
    unfold activeItemIndex in Hi. rewrite Hzero in Hi. by rewrite Hi. }
  rewrite Hinit. constructor.
  - destruct Hshape as [H1 H2 H3 H4 H5 H6]. by constructor.
  - reflexivity.
  - intros _ j Hj. change (activeItemIndex nItems s = Some j) in Hj.
    assert (j = i) as -> by congruence.
    simpl. rewrite lookup_insert_eq. eexists. split; [reflexivity |]. constructor.
  - simpl. unfold isReviewing. simpl. by rewrite Hphase.
Qed.

Lemma shape_startReview (s : Review) :
  Shape nItems s -> phase s = setup -> Shape nItems (startReview s).
Proof.
  intros [H1 H2 H3 H4 H5 H6] Hphase.
  destruct (H4 Hphase) as (Hindex & Hres & Hmissed).
  assert (Hq : reviewQueue s = None).
  { destruct (reviewQueue s); [| reflexivity].
    destruct H5 as (_ & Hrev & _). congruence. }
  constructor; simpl; try done.
  - by rewrite Hq in H5 |- *.
  - intros _. unfold activeQueue. simpl. rewrite Hq, Hindex, length_seq.
    exact some_items.
Qed.

Lemma shape_startReReview (s : Review) :
  Shape nItems s ->
  missedItems s <> [] ->
  Shape nItems (startReReview s).
Proof.
  intros [H1 H2 H3 H4 H5 H6] Hne.
  constructor; simpl; try done.
  - split; [reflexivity |]. split; [reflexivity |].
    apply List.Forall_forall. intros i Hi.
    apply in_map_iff in Hi as (m & <- & Hm).
    rewrite List.Forall_forall in H3, H1. apply H1. by apply H3.
  - intros _. unfold activeQueue. simpl. rewrite length_map.
    destruct (missedItems s); [done | simpl; lia].
Qed.

Lemma shape_resetReview (s : Review) : Shape nItems (resetReview s).
Proof. constructor; simpl; try done. Qed.

Lemma shape_withAttention (att : Attention) (s : Review) :
  Shape nItems s -> Shape nItems (withAttention att s).
Proof. intros [H1 H2 H3 H4 H5 H6]. by constructor. Qed.

(** A click on the advance button in a coherent reviewing state. *)
Lemma advance_shape (th : Z) (s : Review) :
  Coherent nItems s ->
  phase s = reviewing ->
  Shape nItems (advanceItem nItems th s)
  /\ isActive (attention (advanceItem nItems th s))
     = isReviewing (advanceItem nItems th s).
Proof.
  intros [Hshape Href Hopen Hactive] Hphase.
  destruct (shape_active_item s Hshape Hphase) as (i & Hi & Hbound & _).
  destruct (Hopen Hphase i Hi) as (data & Hdata & _).
  destruct (stopTrackingItem_open i th (attention s)) as (r & Hstop & Hr);
    [by rewrite Hdata |].
  destruct Hshape as [H1 H2 H3 H4 H5 H6].
  assert (Happ : Forall (fun k => (k < nItems)%nat)
                        (map itemIndex (itemResults s ++ [r]))).
  { rewrite map_app. apply Forall_app. split; [exact H1 |].
    constructor; [by rewrite Hr | constructor]. }
  unfold advanceItem, stopActive. rewrite Hi, Hstop.
  destruct (Z.of_nat (currentIndex s) <?
            Z.of_nat (length (activeQueue nItems s)) - 1) eqn:Hcond.
  - split; [| exact Hactive].
    constructor; simpl; try done.
    + eapply Forall_impl; [exact H3 |]. intros m Hm. simpl in Hm.
      rewrite map_app. apply in_app_iff. by left.
    + intros Hsetup. congruence.
    + intros _. apply Z.ltb_lt in Hcond.
      change (activeQueue nItems _) with (activeQueue nItems s). lia.
  - split; [| reflexivity].
    assert (Hidx : map itemIndex
                     (if isReReview s
                      then mergeResults (itemResults s ++ [r]) (itemResultsRef s ++ [r])
                      else itemResultsRef s ++ [r])
                   = map itemIndex (itemResults s ++ [r])).
    { rewrite Href. destruct (isReReview s); [apply merge_self_indices | reflexivity]. }
    constructor; simpl; try done.
    + by rewrite Hidx.
    + apply List.Forall_forall. intros m Hm.
      by apply List.filter_In in Hm as [_ Hm].
    + apply List.Forall_forall. intros m Hm.
      apply List.filter_In in Hm as [Hm _].
      rewrite Hidx, <- Href. by apply in_map.
Qed.

Lemma goBack_shape (th : Z) (s : Review) :
  Shape nItems s ->
  phase s = reviewing ->
  Shape nItems (goBack nItems th s)
  /\ attention (goBack nItems th s) = attention s
  /\ isReviewing (goBack nItems th s) = isReviewing s.
Proof.
  intros Hshape Hphase. unfold goBack.
  destruct (0 <? currentIndex s)%nat eqn:Hpos; [| done].
  pose proof (stopActive_state nItems th s) as Hatt.
  destruct (stopActive nItems th s) as [result att]. simpl in Hatt. subst att.
  split; [| done].
  destruct Hshape as [H1 H2 H3 H4 H5 H6]. constructor; simpl; try done.
  - intros Hsetup. congruence.
  - intros _. specialize (H6 Hphase).
    change (activeQueue nItems _) with (activeQueue nItems s). lia.
Qed.

Lemma tick_coherent (s : Review) :
  Coherent nItems s -> Coherent nItems (step nItems RecordTick s).
Proof.
  intros Hcoh. pose proof Hcoh as [Hshape Href Hopen Hactive].
  unfold step. destruct (phase s) eqn:Hphase; try exact Hcoh.
  destruct (activeItemIndex nItems s) as [i |] eqn:Hi; [| exact Hcoh].
  destruct (Hopen eq_refl i eq_refl) as (data & Hdata & Hcopies).
  constructor.
  - by apply shape_withAttention.
  - exact Href.
  - intros _ j Hj. change (activeItemIndex nItems s = Some j) in Hj.
    assert (j = i) as -> by congruence.
    simpl. unfold recordReading. rewrite Hdata. simpl.
    rewrite lookup_insert_eq. eexists. split; [reflexivity |]. simpl.
    apply Forall_app. split; [exact Hcopies | by constructor].
  - simpl. unfold recordReading. rewrite Hdata. simpl.
    rewrite Hactive. unfold isReviewing. simpl. by rewrite Hphase.
Qed.

(** Every event takes a coherent state to a coherent state. *)
Lemma step_coherent (e : Event) (s : Review) :
  Coherent nItems s -> Coherent nItems (step nItems e s).
Proof.
  intros Hcoh. pose proof Hcoh as [Hshape Href Hopen Hactive].
  destruct e as [t | th te | th te | t | t | | m t].
  - unfold step. destruct (phase s) eqn:Hphase; try exact Hcoh.
    apply enter_coherent; [by apply shape_startReview | reflexivity |].
    destruct Hshape as [_ _ _ H4 _ _]. by destruct (H4 Hphase).
  - unfold step. destruct (isReviewing s) eqn:Hrev; [| exact Hcoh].
    apply isReviewing_phase in Hrev.
    destruct (shape_active_item s Hshape Hrev) as (i & _ & _ & ->).
    cbn [andb].
    destruct (advance_shape th s Hcoh Hrev) as [Hsh Hact].
    by apply render_coherent.
  - unfold step. destruct (isReviewing s) eqn:Hrev; [| exact Hcoh].
    pose proof Hrev as Hrev'. apply isReviewing_phase in Hrev.
    destruct (shape_active_item s Hshape Hrev) as (i & _ & _ & ->).
    cbn [andb].
    destruct (currentIndex s =? 0)%nat; [exact Hcoh |]. cbn [negb].
    destruct (goBack_shape th s Hshape Hrev) as (Hsh & Hatt & Hrv).
    apply render_coherent; [exact Hsh |]. by rewrite Hatt, Hrv, Hrev'.
  - unfold step. destruct (phase s) eqn:Hphase; try exact Hcoh.
    destruct (missedItems s) as [| m ms] eqn:Hmissed; [exact Hcoh |].
    apply enter_coherent; [| reflexivity | reflexivity].
    apply shape_startReReview; [exact Hshape | by rewrite Hmissed].
  - unfold step. destruct (phase s) eqn:Hphase; [exact Hcoh | |].
    + destruct (shape_active_item s Hshape Hphase) as (i & _ & _ & ->).
      exact Hcoh.
    + apply render_coherent; [apply shape_resetReview |].
      simpl. rewrite Hactive. unfold isReviewing. simpl. by rewrite Hphase.
  - by apply tick_coherent.
  - unfold step. destruct (isActive (attention s)) eqn:Hact; [| exact Hcoh].
    apply render_coherent; [by apply shape_withAttention |].
    change (isActive (attention s) = isReviewing s). by rewrite Hact.
Qed.

Lemma run_coherent (es : list Event) (s : Review) :
  Coherent nItems s -> Coherent nItems (run nItems es s).
Proof.
  revert s. induction es as [| e es IH]; intros s Hcoh; [exact Hcoh |].
  change (run nItems (e :: es) s) with (run nItems es (step nItems e s)).
  by apply IH, step_coherent.
Qed.

Lemma reachable_coherent (es : list Event) :
  Coherent nItems (run nItems es initialReview).
Proof. apply run_coherent, initial_coherent. Qed.

End Invariant.

(** ** What holds in every state a session can reach *)

(** With a briefing that has items, the reviewing phase always stands on an
    item of the briefing: the position is inside the queue, the queue entry
    is an item index, and the item card with its buttons is shown (never
    the "no items" view). *)
Theorem reviewing_item_shown (nItems : nat) (es : list Event) :
  (0 < nItems)%nat ->
  let s := run nItems es initialReview in
  phase s = reviewing ->
  (currentIndex s < length (activeQueue nItems s))%nat
  /\ exists i, activeItemIndex nItems s = Some i
               /\ (i < nItems)%nat /\ itemShown nItems s = true.
Proof.
  intros Hpos s Hphase.
  destruct (reachable_coherent nItems Hpos es) as [Hshape _ _ _]. fold s in Hshape.
  split; [by apply (shape_position _ _ Hshape) |].
  by apply (shape_active_item nItems Hpos).
Qed.

Lemma reviewing_item_shown_witness :
  exists i, activeItemIndex 2 (run 2 toSecondItem initialReview) = Some i
            /\ (i < 2)%nat
            /\ itemShown 2 (run 2 toSecondItem initialReview) = true.
Proof.
  destruct (reviewing_item_shown 2 toSecondItem) as [_ Hshown];
    [lia | vm_compute; reflexivity | exact Hshown].
Defined.

(** The advance transition in any reachable reviewing state.  Stopping the
    active item always yields a result (never null).  Below the last
    position the result is appended, the position moves up by one and a
    fresh record is opened for the next item.  At the last position the
    session shows the results, with the queue and the re-review mode
    cleared and the metrics session stopped; the flagged entries are the
    failing ones among all stored results followed by the new one, and in a
    re-review the stored results are that same list merged into itself. *)
Theorem advance_transition (nItems : nat) (es : list Event) (th te : Z) :
  (0 < nItems)%nat ->
  let s := run nItems es initialReview in
  phase s = reviewing ->
  exists i r,
    activeItemIndex nItems s = Some i
    /\ fst (stopActive nItems th s) = Some r
    /\ itemIndex r = i
    /\ let s' := step nItems (AdvanceItem th te) s in
       ((S (currentIndex s) < length (activeQueue nItems s))%nat ->
        phase s' = reviewing
        /\ currentIndex s' = S (currentIndex s)
        /\ itemResults s' = itemResults s ++ [r]
        /\ missedItems s' = missedItems s
        /\ exists j,
             activeItemIndex nItems s' = Some j
             /\ itemMetrics (attention s') !! j
                = Some {| readings := []; startTime := te |})
       /\ (S (currentIndex s) = length (activeQueue nItems s) ->
           phase s' = results
           /\ reviewQueue s' = None
           /\ isReReview s' = false
           /\ isActive (attention s') = false
           /\ missedItems s' = List.filter failsThreshold (itemResults s ++ [r])
           /\ itemResults s' =
                if isReReview s
                then mergeResults (itemResults s ++ [r]) (itemResults s ++ [r])
                else itemResults s ++ [r]).
Proof.
  intros Hpos s Hphase.
  destruct (reachable_coherent nItems Hpos es) as [Hshape Href Hopen _].
  fold s in Hshape, Href, Hopen.
  destruct (shape_active_item nItems Hpos s Hshape Hphase) as (i & Hi & _ & Hshown).
  destruct (Hopen Hphase i Hi) as (data & Hdata & _).
  destruct (stopTrackingItem_open i th (attention s)) as (r & Hstop & Hr);
    [by rewrite Hdata |].
  assert (Hrev : isReviewing s = true) by (unfold isReviewing; by rewrite Hphase).
  exists i, r. split; [exact Hi |]. split.
  { unfold stopActive. by rewrite Hi, Hstop. }
  split; [exact Hr |].
  intros s'. subst s'. unfold step. rewrite Hrev, Hshown. cbn [andb].
  unfold advanceItem, stopActive. rewrite Hi, Hstop. split.
  - intros Hnext.
    assert (Hcond : (Z.of_nat (currentIndex s) <?
                     Z.of_nat (length (activeQueue nItems s)) - 1) = true)
      by (apply Z.ltb_lt; lia).
    rewrite Hcond, Nat.add_1_r.
    set (moved := withCurrentIndex (S (currentIndex s))
                    (withAttention (attention s)
                       (withItemResults (itemResults s ++ [r]) s))).
    split; [exact Hphase |]. do 3 (split; [reflexivity |]).
    destruct (lookup_lt_is_Some_2 (activeQueue nItems s) (S (currentIndex s)) Hnext)
      as [j Hj].
    exists j. split; [exact Hj |].
    destruct (render_reviewing nItems te moved j Hphase Hj) as [Hmap _].
    rewrite Hmap. apply lookup_insert_eq.
  - intros Hlast.
    assert (Hcond : (Z.of_nat (currentIndex s) <?
                     Z.of_nat (length (activeQueue nItems s)) - 1) = false)
      by (apply Z.ltb_ge; lia).
    rewrite Hcond. simpl. rewrite Href. done.
Qed.

Lemma advance_transition_witness :
  phase (step 2 (AdvanceItem 400 400) (run 2 toSecondItem initialReview)) = results.
Proof.
  destruct (advance_transition 2 toSecondItem 400 400)
    as (i & r & _ & _ & _ & _ & Hlast);
    [lia | vm_compute; reflexivity |].
  destruct Hlast as [Hphase _]; [vm_compute; reflexivity | exact Hphase].
Defined.

(** In every reachable state each flagged entry fails the threshold, each
    flagged item has a row in the results, and every result belongs to an
    item of the briefing. *)
Theorem flagged_have_results (nItems : nat) (es : list Event) :
  (0 < nItems)%nat ->
  let s := run nItems es initialReview in
  Forall (fun m => failsThreshold m = true) (missedItems s)
  /\ (forall i, isMissed i s = true -> is_Some (resultOf i s))
  /\ Forall (fun r => (itemIndex r < nItems)%nat) (itemResults s).
Proof.
  intros Hpos s.
  destruct (reachable_coherent nItems Hpos es) as [[H1 H2 H3 _ _ _] _ _ _].
  fold s in H1, H2, H3.
  split; [exact H2 |]. split.
  - intros i Hi. unfold isMissed in Hi.
    apply existsb_exists in Hi as (m & Hm & Hidx). apply Nat.eqb_eq in Hidx.
    rewrite List.Forall_forall in H3. specialize (H3 m Hm).
    apply in_map_iff in H3 as (r & Hr & Hin).
    unfold resultOf.
    destruct (List.find (fun x => (itemIndex x =? i)%nat) (itemResults s))
      as [x |] eqn:Hfind; [by eexists |].
    exfalso. apply (List.find_none _ _ Hfind) in Hin.
    apply Nat.eqb_neq in Hin. congruence.
  - apply List.Forall_forall. intros r Hr.
    rewrite List.Forall_forall in H1. apply H1. by apply in_map.
Qed.

Lemma flagged_have_results_witness :
  is_Some (resultOf 1 (run 2 reReviewTrace initialReview)).
Proof.
  destruct (flagged_have_results 2 reReviewTrace) as (_ & Hrows & _); [lia |].
  apply Hrows. vm_compute. reflexivity.
Defined.

(** Whenever the setup screen shows, after a reset as much as at the
    start, the session is cleared: position 0, no results, nothing
    flagged, no queue, no re-review mode. *)
Theorem setup_is_clean (nItems : nat) (es : list Event) :
  (0 < nItems)%nat ->
  let s := run nItems es initialReview in
  phase s = setup ->
  currentIndex s = 0%nat /\ itemResults s = [] /\ missedItems s = []
  /\ reviewQueue s = None /\ isReReview s = false /\ itemResultsRef s = [].
Proof.
  intros Hpos s Hphase.
  destruct (reachable_coherent nItems Hpos es) as [[_ _ _ H4 H5 _] Href _ _].
  fold s in H4, H5, Href.
  destruct (H4 Hphase) as (Hindex & Hres & Hmissed).
  repeat (split; [done |]).
  destruct (reviewQueue s) as [q |].
  - destruct H5 as (_ & Hrev & _). congruence.
  - repeat split; try done. by rewrite Href.
Qed.

Lemma setup_is_clean_witness :
  itemResults (run 2 (reReviewTrace ++ [ResetReview 800]) initialReview) = [].
Proof.
  destruct (setup_is_clean 2 (reReviewTrace ++ [ResetReview 800]))
    as (_ & Hres & _); [lia | vm_compute; reflexivity | exact Hres].
Defined.





(** While reviewing, the record of the active item holds nothing but copies
    of the current snapshot: every render restarts the record, and a new
    snapshot causes a render, so readings taken under an earlier snapshot
    never survive. *)
Theorem readings_are_copies (nItems : nat) (es : list Event) :
  (0 < nItems)%nat ->
  let s := run nItems es initialReview in
  phase s = reviewing ->
  exists i data,
    activeItemIndex nItems s = Some i
    /\ itemMetrics (attention s) !! i = Some data
    /\ Forall (fun r => r = liveMetrics (attention s)) (readings data).
Proof.
  intros Hpos s Hphase.
  destruct (reachable_coherent nItems Hpos es) as [Hshape _ Hopen _].
  fold s in Hshape, Hopen.
  destruct (shape_active_item nItems Hpos s Hshape Hphase) as (i & Hi & _).
  destruct (Hopen Hphase i Hi) as (data & Hdata & Hcopies).
  by exists i, data.
Qed.

Lemma readings_are_copies_witness :
  exists i data,
    activeItemIndex 2 (run 2 toSecondItemSampled initialReview) = Some i
    /\ itemMetrics (attention (run 2 toSecondItemSampled initialReview)) !! i
       = Some data
    /\ Forall (fun r => r = liveMetrics (attention (run 2 toSecondItemSampled initialReview)))
              (readings data).
Proof.
  apply (readings_are_copies 2 toSecondItemSampled); [lia |].
  vm_compute. reflexivity.
Defined.

(** ** Passes from any setup screen, the re-review queue, empty briefings *)

Lemma forward_start_clean (nItems : nat) (t : Z) (s : Review) :
  (0 < nItems)%nat ->
  Coherent nItems s ->
  phase s = setup ->
  ForwardAt nItems 0 (step nItems (StartReview t) s).
Proof.
  intros Hpos Hcoh Hphase.
  pose proof (step_coherent nItems Hpos (StartReview t) s Hcoh)
    as [_ Href Hopen _].
  destruct Hcoh as [[_ _ _ H4 H5 _] _ _ _].
  destruct (H4 Hphase) as (Hindex & Hres & _).
  assert (Hq : reviewQueue s = None).
  { destruct (reviewQueue s); [| reflexivity].
    destruct H5 as (_ & Hrev & _). congruence. }
  rewrite Hq in H5.
  revert Href Hopen. unfold step. rewrite Hphase. intros Href Hopen.
  destruct (sessionInit_fields nItems t (render nItems t (startReview s)))
    as (Hp & Hf & Hrq & Hr & _ & Hi).
  assert (Hactive : activeItemIndex nItems
                      (sessionInit nItems t (render nItems t (startReview s)))
                    = Some 0%nat).
  { unfold activeItemIndex, activeQueue. rewrite Hrq, Hi. simpl.
    rewrite Hq, Hindex. by apply lookup_seq_lt. }
  constructor.
  - by rewrite Hp.
  - by rewrite Hrq.
  - by rewrite Hf.
  - by rewrite Hi.
  - exact Hpos.
  - rewrite Hr. simpl. by rewrite Hres.
  - exact Href.
  - destruct (Hopen (eq_trans Hp eq_refl) 0%nat Hactive) as (data & Hdata & _).
    by eexists.
Qed.

(** From any setup screen a session can reach, the first one or one
    reached by a reset after passes of any kind, a pass walked forward ends
    with exactly one result per item, for the items 0 to N-1 in order, and
    an item is then flagged exactly when its result fails the threshold. *)
Theorem forward_pass_from_setup
    (nItems : nat) (before : list Event) (t : Z) (es : list Event) :
  (0 < nItems)%nat ->
  let s0 := run nItems before initialReview in
  phase s0 = setup ->
  forallb forwardEvent es = true ->
  (nItems <= countAdvances es)%nat ->
  let s := run nItems (StartReview t :: es) s0 in
  phase s = results
  /\ map itemIndex (itemResults s) = seq 0 nItems
  /\ missedItems s = List.filter failsThreshold (itemResults s)
  /\ forall i, isMissed i s = true
               <-> exists r, resultOf i s = Some r /\ failsThreshold r = true.
Proof.
  intros Hpos s0 Hphase Hes Hcount s.
  assert (Hdone : FullPassDone nItems s).
  { apply (forward_run nItems es 0); [exact Hes | lia |].
    apply forward_start_clean; [exact Hpos | | exact Hphase].
    by apply reachable_coherent. }
  destruct Hdone as [Hph Hidx Hmissed _ _].
  repeat (split; [done |]).
  intros i. unfold isMissed, resultOf. rewrite Hmissed.
  apply flagged_iff_failing. rewrite Hidx. apply List.seq_NoDup.
Qed.

Lemma forward_pass_from_setup_witness :
  map itemIndex
    (itemResults
       (run 2 (StartReview 900 :: fullPassEvents)
          (run 2 (backAndForthTrace ++ [ResetReview 800]) initialReview)))
  = seq 0 2.
Proof.
  destruct (forward_pass_from_setup 2 (backAndForthTrace ++ [ResetReview 800])
              900 fullPassEvents) as (_ & Hidx & _);
    [lia | vm_compute; reflexivity | vm_compute; reflexivity
     | vm_compute; lia | exact Hidx].
Defined.

Lemma filter_map_sublist (rs : list ItemResult) :
  map itemIndex (List.filter failsThreshold rs) `sublist_of` map itemIndex rs.
Proof.
  induction rs as [| r rs IH]; simpl; [constructor |].
  destruct (failsThreshold r); simpl; by constructor.
Qed.

(** After a pass walked forward with at least one item flagged, starting
    the re-review enters the reviewing phase at position 0 in re-review
    mode with the queue made of the flagged item indices: a subsequence of
    0 to N-1 in the original order, holding exactly the items whose result
    fails the threshold. *)
Theorem reReview_queue
    (nItems : nat) (t : Z) (es : list Event) (t' : Z) :
  (0 < nItems)%nat ->
  forallb forwardEvent es = true ->
  (nItems <= countAdvances es)%nat ->
  let s := run nItems (StartReview t :: es) initialReview in
  missedItems s <> [] ->
  let s' := step nItems (StartReReview t') s in
  phase s' = reviewing
  /\ currentIndex s' = 0%nat
  /\ isReReview s' = true
  /\ reviewQueue s' = Some (subQueue s)
  /\ subQueue s `sublist_of` seq 0 nItems
  /\ forall i, In i (subQueue s)
               <-> exists r, resultOf i s = Some r /\ failsThreshold r = true.
Proof.
  intros Hpos Hes Hcount s Hne s'.
  assert (Hdone : FullPassDone nItems s).
  { apply (forward_run nItems es 0); [exact Hes | lia | by apply forward_start]. }
  destruct Hdone as [Hph Hidx Hmissed _ _].
  assert (Hs' : s' = sessionInit nItems t' (render nItems t' (startReReview s))).
  { subst s'. unfold step. rewrite Hph. by destruct (missedItems s). }
  destruct (sessionInit_fields nItems t' (render nItems t' (startReReview s)))
    as (Hp & Hf & Hrq & _ & _ & Hi).
  rewrite Hs'. repeat (split; [done |]). split.
  - unfold subQueue. rewrite Hmissed, <- Hidx. apply filter_map_sublist.
  - intros i. unfold subQueue, resultOf. rewrite Hmissed.
    rewrite <- (flagged_iff_failing i (itemResults s))
      by (rewrite Hidx; apply List.seq_NoDup).
    rewrite existsb_exists, in_map_iff. split.
    + intros (m & Hm & Hin). exists m. split; [exact Hin | by apply Nat.eqb_eq].
    + intros (m & Hin & Hm). exists m. split; [by apply Nat.eqb_eq | exact Hin].
Qed.

Lemma reReview_queue_witness :
  reviewQueue
    (step 2 (StartReReview 500)
       (run 2 (StartReview 0 :: fullPassEvents) initialReview))
  = Some (subQueue (run 2 (StartReview 0 :: fullPassEvents) initialReview)).
Proof.
  destruct (reReview_queue 2 0 fullPassEvents 500) as (_ & _ & _ & Hqueue & _);
    [lia | vm_compute; reflexivity | vm_compute; lia
     | vm_compute; discriminate | exact Hqueue].
Defined.

Example reReview_queue_sample :
  subQueue (run 2 fullPassTrace initialReview) = [1%nat].
Proof. vm_compute. reflexivity. Qed.

Lemma idle_step (e : Event) (s : Review) : Idle s -> Idle (step 0 e s).
Proof.
  intros Hidle. pose proof Hidle as [Hphase Hindex Hres Hmissed Hqueue Hatt].
  assert (Hnone : activeItemIndex 0 s = None).
  { unfold activeItemIndex, activeQueue. by rewrite Hqueue. }
  assert (Hshown : itemShown 0 s = false).
  { unfold itemShown. by rewrite Hnone. }
  destruct e as [t | th te | th te | t | t | | m t]; unfold step.
  - destruct (phase s) eqn:Hp; try exact Hidle.
    unfold sessionInit.
    change (itemShown 0 (render 0 t (startReview s))) with (itemShown 0 s).
    rewrite Hshown. unfold render.
    change (activeItemIndex 0 (startReview s)) with (activeItemIndex 0 s).
    rewrite Hnone. by constructor.
  - rewrite Hshown, andb_false_r. exact Hidle.
  - rewrite Hshown, andb_false_r. exact Hidle.
  - by destruct (phase s).
  - destruct (phase s) eqn:Hp; [exact Hidle | | done].
    rewrite Hshown. constructor; simpl; done.
  - rewrite Hnone. by destruct (phase s).
  - by rewrite Hatt.
Qed.

(** On a briefing without items nothing happens beyond the start button
    and the reset of the "no items" view: the results are never reached,
    nothing is recorded or flagged, and the hook is never touched. *)
Theorem empty_briefing (es : list Event) :
  phase (run 0 es initialReview) <> results
  /\ itemResults (run 0 es initialReview) = []
  /\ missedItems (run 0 es initialReview) = []
  /\ attention (run 0 es initialReview) = initialAttention.
Proof.
  assert (Hidle : Idle (run 0 es initialReview)).
  { assert (Hgen : forall s, Idle s -> Idle (run 0 es s)).
    { induction es as [| e es IH]; intros s Hs; [exact Hs |].
      change (run 0 (e :: es) s) with (run 0 es (step 0 e s)).
      by apply IH, idle_step. }
    apply Hgen. by constructor. }
  destruct Hidle as [H1 _ H3 H4 _ H6]. done.
Qed.

(** ** The measuring window *)

Lemma ticks_record (nItems : nat) (i : nat) (t : Z) (k : nat) :
  forall (s : Review) (rs : list Live.t),
  phase s = reviewing ->
  activeItemIndex nItems s = Some i ->
  itemMetrics (attention s) !! i = Some {| readings := rs; startTime := t |} ->
  let s' := run nItems (repeat RecordTick k) s in
  activeItemIndex nItems s' = Some i
  /\ liveMetrics (attention s') = liveMetrics (attention s)
  /\ itemMetrics (attention s') !! i
     = Some {| readings := rs ++ repeat (liveMetrics (attention s)) k;
               startTime := t |}.
Proof.
  induction k as [| k IH]; intros s rs Hphase Hi Hrec; cbv zeta.
  - simpl. by rewrite app_nil_r.
  - change (run nItems (repeat RecordTick (S k)) s)
      with (run nItems (repeat RecordTick k) (step nItems RecordTick s)).
    assert (Hstep : step nItems RecordTick s
                    = withAttention (recordReading i (attention s)) s).
    { unfold step. by rewrite Hphase, Hi. }
    rewrite Hstep.
    assert (Hnew : itemMetrics (recordReading i (attention s)) !! i
                   = Some {| readings := rs ++ [liveMetrics (attention s)];
                             startTime := t |}
                   /\ liveMetrics (recordReading i (attention s))
                      = liveMetrics (attention s)).
    { unfold recordReading. rewrite Hrec. simpl. by rewrite lookup_insert_eq. }
    destruct Hnew as [Hnew Hlive].
    destruct (IH (withAttention (recordReading i (attention s)) s)
                 (rs ++ [liveMetrics (attention s)]) Hphase Hi Hnew)
      as (Hi' & Hlive' & Hrec').
    split; [exact Hi' |]. split; [by rewrite Hlive' |].
    rewrite Hrec'. simpl. by rewrite Hlive, <- app_assoc.
Qed.

(** A new snapshot restarts the measuring window of the active item: when
    a snapshot arrives at time [t] during a pass and [k] sampling ticks
    follow, stopping the item at time [th] reports [th - t] as the time
    spent, whatever time the item has been on screen, and reports the
    mean of [k] copies of that snapshot (the snapshot itself for [k = 0]). *)
Theorem snapshot_restarts_window
    (nItems : nat) (es : list Event) (m : Live.t) (t : Z) (k : nat) (th : Z) :
  (0 < nItems)%nat ->
  let s := run nItems es initialReview in
  phase s = reviewing ->
  let s1 := run nItems (LiveUpdate m t :: repeat RecordTick k) s in
  exists i,
    activeItemIndex nItems s = Some i
    /\ activeItemIndex nItems s1 = Some i
    /\ fst (stopActive nItems th s1) =
         Some {| itemIndex := i;
                 avgEngagement :=
                   match k with
                   | O => Live.engagement m
                   | S _ => arithmeticMean (map Live.engagement (repeat m k))
                   end;
                 avgFocus :=
                   match k with
                   | O => Live.focus m
                   | S _ => arithmeticMean (map Live.focus (repeat m k))
                   end;
                 timeSpentMs := th - t |}.
Proof.
  intros Hpos s Hphase s1.
  destruct (reachable_coherent nItems Hpos es) as [Hshape _ _ Hactive].
  fold s in Hshape, Hactive.
  destruct (shape_active_item nItems Hpos s Hshape Hphase) as (i & Hi & _).
  assert (Hact : isActive (attention s) = true).
  { rewrite Hactive. unfold isReviewing. by rewrite Hphase. }
  set (updated := withAttention (setLiveMetrics m (attention s)) s).
  assert (Hstep : step nItems (LiveUpdate m t) s = render nItems t updated).
  { unfold step. by rewrite Hact. }
  destruct (render_reviewing nItems t updated i Hphase Hi) as [Hmap Hlive].
  assert (Hrec : itemMetrics (attention (render nItems t updated)) !! i
                 = Some {| readings := []; startTime := t |}).
  { rewrite Hmap. apply lookup_insert_eq. }
  destruct (ticks_record nItems i t k (render nItems t updated) []
              Hphase Hi Hrec) as (Hi1 & Hlive1 & Hrec1).
  rewrite Hlive in Hlive1, Hrec1. simpl in Hlive1, Hrec1.
  exists i. split; [exact Hi |].
  subst s1.
  change (run nItems (LiveUpdate m t :: repeat RecordTick k) s)
    with (run nItems (repeat RecordTick k) (step nItems (LiveUpdate m t) s)).
  rewrite Hstep. split; [exact Hi1 |].
  unfold stopActive. rewrite Hi1. unfold stopTrackingItem. rewrite Hrec1.
  cbn [readings startTime]. rewrite Hlive1.
  destruct k as [| k]; [reflexivity |].
  cbn [repeat fst]. unfold arithmeticMean.
  rewrite sumEngagement_floatSum, sumFocus_floatSum, !length_map.
  reflexivity.
Qed.

Lemma snapshot_restarts_window_witness :
  exists i,
    activeItemIndex 2 (run 2 toSecondItem initialReview) = Some i
    /\ activeItemIndex 2
         (run 2 (LiveUpdate (snapshot 0.5 0.5) 9000 :: repeat RecordTick 2)
            (run 2 toSecondItem initialReview)) = Some i
    /\ fst (stopActive 2 9100
              (run 2 (LiveUpdate (snapshot 0.5 0.5) 9000 :: repeat RecordTick 2)
                 (run 2 toSecondItem initialReview)))
       = Some {| itemIndex := i;
                 avgEngagement :=
                   arithmeticMean (map Live.engagement (repeat (snapshot 0.5 0.5) 2));
                 avgFocus :=
                   arithmeticMean (map Live.focus (repeat (snapshot 0.5 0.5) 2));
                 timeSpentMs := 9100 - 9000 |}.
Proof.
  apply (snapshot_restarts_window 2 toSecondItem (snapshot 0.5 0.5) 9000 2 9100);
    [lia | vm_compute; reflexivity].
Defined.
